(** * graph_mail_sender.py: sending one e-mail through the Graph API

    A shallow embedding of [assets/scripts/graph_mail_sender.py] and the
    properties of its five stages: [validate_config], [acquire_token],
    [build_attachment], [build_payload], [send_mail], and of the entry
    point that maps their exceptions to a log line and an exit code.

    Python values that travel as [dict]s (the token document, the attachment
    descriptor, the request body, a parsed JSON answer) are values of
    [pyval]; a [dict] is an association list in insertion order, which is
    the order [dict.items()] iterates in.  A Python [str] is a [string]
    (its UTF-8 bytes), [bytes] is [list byte], [int] is [Z]. *)

From Stdlib Require Import List String Ascii ZArith NArith Lia Bool.
From Stdlib Require Import Strings.Byte DecimalString.
Import ListNotations.

Set Warnings "-register-all".

Local Open Scope list_scope.
Local Open Scope string_scope.

(** ** Strings *)

(** [s] occurs in [t] as a contiguous run of characters. *)
Definition embeds (t s : string) : Prop :=
  exists pre post, t = pre ++ s ++ post.

(** The same test, executable: [s in t] of Python. *)
Fixpoint contains (t s : string) : bool :=
  String.prefix s t ||
  match t with
  | EmptyString => false
  | String _ t' => contains t' s
  end.

(** [sep.join(parts)]. *)
Definition join (sep : string) (parts : list string) : string :=
  String.concat sep parts.

(** [str(n)] for an [int]. *)
Definition str_of_int (n : Z) : string :=
  NilZero.string_of_int (Z.to_int n).

(** ** Python values *)

Inductive pyval : Type :=
| PNone
| PBool (b : bool)
| PInt (n : Z)
| PStr (s : string)
| PList (items : list pyval)
| PDict (entries : list (string * pyval)).

Definition pydict := list (string * pyval).

(** [k in d] *)
Fixpoint dict_mem (k : string) (d : pydict) : bool :=
  match d with
  | [] => false
  | (k', _) :: d' => String.eqb k k' || dict_mem k d'
  end.

(** [d[k]], [None] standing for [KeyError]. *)
Fixpoint dict_lookup (k : string) (d : pydict) : option pyval :=
  match d with
  | [] => None
  | (k', v) :: d' => if String.eqb k k' then Some v else dict_lookup k d'
  end.

(** [d.get(k)]: the value, or Python's [None] when the key is missing. *)
Definition dict_get (k : string) (d : pydict) : pyval :=
  match dict_lookup k d with
  | Some v => v
  | None => PNone
  end.

(** [d[k] = v]: an existing key keeps its place, a new one goes last. *)
Fixpoint dict_set (k : string) (v : pyval) (d : pydict) : pydict :=
  match d with
  | [] => [(k, v)]
  | (k', v') :: d' =>
      if String.eqb k k' then (k', v) :: d' else (k', v') :: dict_set k v d'
  end.

(** Truth value of an object, as [if x:] and [not x] test it. *)
Definition truthy (v : pyval) : bool :=
  match v with
  | PNone => false
  | PBool b => b
  | PInt n => negb (n =? 0)%Z
  | PStr s => negb (s =? "")
  | PList l => match l with [] => false | _ => true end
  | PDict d => match d with [] => false | _ => true end
  end.

Definition str_truthy (s : string) : bool := negb (s =? "").

(** *** Formatting inside an f-string

    [repr] of a [str] (the choice of quote and the escapes) belongs to the
    interpreter and is a parameter here; everything else is written out. *)
Section Format.
Variable repr_str : string -> string.

Fixpoint py_repr (v : pyval) : string :=
  match v with
  | PNone => "None"
  | PBool true => "True"
  | PBool false => "False"
  | PInt n => str_of_int n
  | PStr s => repr_str s
  | PList l => "[" ++ join ", " (map py_repr l) ++ "]"
  | PDict d =>
      "{" ++ join ", "
               (map (fun kv => match kv with
                               | (k, x) => repr_str k ++ ": " ++ py_repr x
                               end) d) ++ "}"
  end.

(** [f"{v}"], that is [str(v)]: a [str] is inserted as it is. *)
Definition py_str (v : pyval) : string :=
  match v with
  | PStr s => s
  | _ => py_repr v
  end.
End Format.

(** ** Exceptions, effects and the monad of the script *)

(** The exception classes the script raises or catches.  [EnvironmentError]
    is not a class of its own: since Python 3.3 the name is bound to
    [OSError] (and the [dict | None] annotation of [build_payload] needs
    3.10). *)
Inductive exn_class : Type :=
| OSError
| FileNotFoundError
| IsADirectoryError
| RuntimeError
| KeyError
| HTTPError.

Definition EnvironmentError : exn_class := OSError.

Definition exn_class_eqb (a b : exn_class) : bool :=
  match a, b with
  | OSError, OSError | FileNotFoundError, FileNotFoundError
  | IsADirectoryError, IsADirectoryError | RuntimeError, RuntimeError
  | KeyError, KeyError | HTTPError, HTTPError => true
  | _, _ => false
  end.

Record exn : Type := Raise { exn_cls : exn_class; exn_msg : string }.

Inductive log_level : Type := INFO | ERROR.

Inductive event : Type :=
| EvLog (lvl : log_level) (msg : string)
| EvTokenRequest (client_id authority secret : string) (scopes : list string)
| EvFileRead (path : string)
| EvPost (url : string) (headers : list (string * string)) (body : pyval).

(** A computation ends in a value or in a raised exception and leaves the
    list of effects it performed, oldest first. *)
Definition M (A : Type) : Type := (exn + A) * list event.

Definition ret {A} (a : A) : M A := (inr a, []).
Definition raise {A} (c : exn_class) (msg : string) : M A :=
  (inl (Raise c msg), []).
Definition emit (e : event) : M unit := (inr tt, [e]).
Definition bind {A B} (m : M A) (f : A -> M B) : M B :=
  match m with
  | (inl e, t) => (inl e, t)
  | (inr a, t) => let (r, t') := f a in (r, (t ++ t')%list)
  end.

Declare Scope py_scope.
Delimit Scope py_scope with py.
Notation "x <- m ;; k" := (bind m (fun x => k))
  (at level 100, m at next level, right associativity) : py_scope.
Notation "m ;; k" := (bind m (fun _ => k))
  (at level 100, right associativity) : py_scope.

Definition log_info (msg : string) : M unit := emit (EvLog INFO msg).

Definition outcome {A} (m : M A) : exn + A := fst m.
Definition effects {A} (m : M A) : list event := snd m.

(** ** Base64 ([base64.b64encode] of the standard library, RFC 4648)

    Three bytes make a 24-bit group that is cut into four 6-bit digits; a
    last group of one or two bytes is padded with zero bits and the missing
    digits are written [=]. *)

Definition b64_alphabet : string :=
  "ABCDEFGHIJKLMNOPQRSTUVWXYZabcdefghijklmnopqrstuvwxyz0123456789+/".

Definition b64_pad : ascii := "="%char.

(** The digit for a 6-bit value. *)
Definition b64_digit (n : N) : ascii :=
  match String.get (N.to_nat n) b64_alphabet with
  | Some c => c
  | None => b64_pad
  end.

Fixpoint b64_find (c : ascii) (table : string) (i : N) : option N :=
  match table with
  | EmptyString => None
  | String c' table' =>
      if Ascii.eqb c c' then Some i else b64_find c table' (N.succ i)
  end.

(** The 6-bit value of a digit, if it is one. *)
Definition b64_value (c : ascii) : option N := b64_find c b64_alphabet 0%N.

Definition group24 (a b c : byte) : N :=
  (Byte.to_N a * 65536 + Byte.to_N b * 256 + Byte.to_N c)%N.

Definition sextet (k : N) (g : N) : N := ((g / 64 ^ k) mod 64)%N.

Fixpoint b64encode (data : list byte) : string :=
  match data with
  | [] => ""
  | [a] =>
      let g := group24 a x00 x00 in
      String (b64_digit (sextet 3 g)) (String (b64_digit (sextet 2 g))
        (String b64_pad (String b64_pad "")))
  | [a; b] =>
      let g := group24 a b x00 in
      String (b64_digit (sextet 3 g)) (String (b64_digit (sextet 2 g))
        (String (b64_digit (sextet 1 g)) (String b64_pad "")))
  | a :: b :: c :: rest =>
      let g := group24 a b c in
      String (b64_digit (sextet 3 g)) (String (b64_digit (sextet 2 g))
        (String (b64_digit (sextet 1 g)) (String (b64_digit (sextet 0 g))
          (b64encode rest))))
  end.

Definition octet (k : N) (g : N) : byte :=
  match Byte.of_N ((g / 256 ^ k) mod 256)%N with
  | Some b => b
  | None => x00
  end.

Definition ungroup (v1 v2 v3 v4 : N) : N :=
  (v1 * 262144 + v2 * 4096 + v3 * 64 + v4)%N.

(** The strict decoder: whole groups of four digits, padding only in the
    last group, nothing outside the alphabet. *)
Fixpoint b64decode (text : string) : option (list byte) :=
  match text with
  | EmptyString => Some []
  | String c1 (String c2 (String c3 (String c4 rest))) =>
      match b64_value c1, b64_value c2 with
      | Some v1, Some v2 =>
          if Ascii.eqb c4 b64_pad then
            match rest with
            | EmptyString =>
                if Ascii.eqb c3 b64_pad then
                  Some [octet 2 (ungroup v1 v2 0 0)]
                else
                  match b64_value c3 with
                  | Some v3 =>
                      let g := ungroup v1 v2 v3 0 in
                      Some [octet 2 g; octet 1 g]
                  | None => None
                  end
            | String _ _ => None
            end
          else
            match b64_value c3, b64_value c4, b64decode rest with
            | Some v3, Some v4, Some tail =>
                let g := ungroup v1 v2 v3 v4 in
                Some (octet 2 g :: octet 1 g :: octet 0 g :: tail)
            | _, _, _ => None
            end
      | _, _ => None
      end
  | _ => None
  end.

(** ** The configuration block and the outside world *)

(** [RECIPIENT_EMAIL]: "One address or a list". *)
Inductive recipient_value : Type :=
| RStr (address : string)
| RList (addresses : list string).

Record config : Type := Config {
  CLIENT_ID : string;
  CLIENT_SECRET : string;
  TENANT_ID : string;
  SENDER_EMAIL : string;
  RECIPIENT_EMAIL : recipient_value;
  EMAIL_SUBJECT : string;
  EMAIL_BODY : string;
  EMAIL_BODY_TYPE : string;
  ATTACHMENT_PATH : option string
}.

Definition GRAPH_ENDPOINT : string := "https://graph.microsoft.com/v1.0".
Definition SCOPE : list string := ["https://graph.microsoft.com/.default"].
Definition AUTHORITY (cfg : config) : string :=
  "https://login.microsoftonline.com/" ++ TENANT_ID cfg.

Inductive fs_node : Type :=
| RegularFile (content : list byte)
| Directory.

(** What [requests.post] hands back: [json_body] is [None] when
    [response.json()] raises. *)
Record http_response : Type := Response {
  status_code : Z;
  json_body : option pyval;
  text : string
}.

(** Everything the script reaches outside itself: the file system (a regular
    file is taken to be readable), the identity provider behind
    [acquire_token_for_client] and the mail endpoint behind
    [requests.post]. *)
Record world : Type := World {
  fs : string -> option fs_node;
  token_endpoint : string -> string -> string -> list string -> pydict;
  mail_endpoint : string -> list (string * string) -> pyval -> http_response
}.

Definition nl : string := String (ascii_of_nat 10) "".

(** [os.path.basename] of [posixpath]: what follows the last [/]. *)
Fixpoint has_sep (p : string) : bool :=
  match p with
  | EmptyString => false
  | String c r => Ascii.eqb c "/" || has_sep r
  end.

Fixpoint basename (p : string) : string :=
  match p with
  | EmptyString => ""
  | String c r =>
      if has_sep r then basename r
      else if Ascii.eqb c "/" then r else p
  end.

Definition recipient_entry (addr : string) : pyval :=
  PDict [("emailAddress", PDict [("address", PStr addr)])].

(** [v[k]] for a value that is a [dict]. *)
Definition field (k : string) (v : pyval) : option pyval :=
  match v with
  | PDict d => dict_lookup k d
  | _ => None
  end.

(** The message inside a request body, and two of its fields. *)
Definition message_of (payload : pyval) : option pyval := field "message" payload.

Definition to_recipients (payload : pyval) : option pyval :=
  match message_of payload with
  | Some message => field "toRecipients" message
  | None => None
  end.

Definition attachments_of (payload : pyval) : option pyval :=
  match message_of payload with
  | Some message => field "attachments" message
  | None => None
  end.

Definition nonempty {A} (l : list A) : bool :=
  match l with [] => false | _ :: _ => true end.

(** ** The script *)

Section Script.
(** Library behaviour the script relies on and does not define:
    [repr] of a [str]; [mimetypes.guess_type] (its first component);
    whether [requests.HTTPError] descends from [OSError] (it does in the
    released versions of requests, through [RequestException(IOError)]). *)
Variable repr_str : string -> string.
Variable guess_type : string -> option string.
Variable HTTPError_is_OSError : bool.

Variable cfg : config.
Variable w : world.

Local Open Scope py_scope.

(** [isinstance(exc, cls)], used by the [except] clauses. *)
Definition isinstance (c cls : exn_class) : bool :=
  exn_class_eqb c cls ||
  match cls, c with
  | OSError, FileNotFoundError => true
  | OSError, IsADirectoryError => true
  | OSError, HTTPError => HTTPError_is_OSError
  | _, _ => false
  end.

Definition required_variables : list (string * string) :=
  [ ("GRAPH_CLIENT_ID", CLIENT_ID cfg);
    ("GRAPH_CLIENT_SECRET", CLIENT_SECRET cfg);
    ("GRAPH_TENANT_ID", TENANT_ID cfg) ].

Definition missing_variables : list string :=
  map fst (filter (fun nv => negb (str_truthy (snd nv))) required_variables).

Definition validate_config : M unit :=
  let missing := missing_variables in
  if nonempty missing then
    raise EnvironmentError
      ("Missing required environment variable(s): " ++ join ", " missing
       ++ nl ++
       "Set them in your shell or a .env file before running this script.")
  else ret tt.

(** [d[k]] as a statement that may raise. *)
Definition dict_item (k : string) (d : pydict) : M pyval :=
  match dict_lookup k d with
  | Some v => ret v
  | None => raise KeyError (repr_str k)
  end.

Definition acquire_token : M pyval :=
  emit (EvTokenRequest (CLIENT_ID cfg) (AUTHORITY cfg) (CLIENT_SECRET cfg)
          SCOPE) ;;
  let result :=
    token_endpoint w (CLIENT_ID cfg) (AUTHORITY cfg) (CLIENT_SECRET cfg)
      SCOPE in
  if dict_mem "access_token" result then
    log_info "Access token acquired." ;;
    dict_item "access_token" result
  else
    raise RuntimeError
      ("Authentication failed. Error: "
       ++ py_str repr_str (dict_get "error" result) ++ " — "
       ++ py_str repr_str (dict_get "error_description" result)).

Definition isfile (path : string) : bool :=
  match fs w path with
  | Some (RegularFile _) => true
  | _ => false
  end.

(** [open(path, "rb")] followed by [fh.read()]. *)
Definition read_binary (path : string) : M (list byte) :=
  match fs w path with
  | Some (RegularFile content) => emit (EvFileRead path) ;; ret content
  | Some Directory => raise IsADirectoryError path
  | None => raise FileNotFoundError path
  end.

(** [mime_type, _ = mimetypes.guess_type(path)] followed by
    [mime_type or "application/octet-stream"]. *)
Definition mime_of (path : string) : string :=
  match guess_type path with
  | Some m => if str_truthy m then m else "application/octet-stream"
  | None => "application/octet-stream"
  end.

Definition build_attachment (file_path : string) : M pyval :=
  if negb (isfile file_path) then
    raise FileNotFoundError ("Attachment not found: " ++ file_path)
  else
    let file_name := basename file_path in
    let mime_type := mime_of file_path in
    data <- read_binary file_path ;;
    let encoded := b64encode data in
    log_info ("Attachment ready: " ++ file_name ++ " (" ++ mime_type ++ ")") ;;
    ret (PDict [ ("@odata.type", PStr "#microsoft.graph.fileAttachment");
                 ("name", PStr file_name);
                 ("contentType", PStr mime_type);
                 ("contentBytes", PStr encoded) ]).

(** [[RECIPIENT_EMAIL] if isinstance(RECIPIENT_EMAIL, str) else
    RECIPIENT_EMAIL] *)
Definition recipients : list string :=
  match RECIPIENT_EMAIL cfg with
  | RStr a => [a]
  | RList l => l
  end.

Definition build_payload (attachment : pyval) : pyval :=
  let message : pydict :=
    [ ("subject", PStr (EMAIL_SUBJECT cfg));
      ("body", PDict [ ("contentType", PStr (EMAIL_BODY_TYPE cfg));
                       ("content", PStr (EMAIL_BODY cfg)) ]);
      ("toRecipients", PList (map recipient_entry recipients)) ] in
  let message :=
    if truthy attachment
    then dict_set "attachments" (PList [attachment]) message
    else message in
  PDict [("message", PDict message); ("saveToSentItems", PBool true)].

Definition sendmail_url : string :=
  GRAPH_ENDPOINT ++ "/users/" ++ SENDER_EMAIL cfg ++ "/sendMail".

Definition sendmail_headers (token : pyval) : list (string * string) :=
  [ ("Authorization", "Bearer " ++ py_str repr_str token);
    ("Content-Type", "application/json") ].

Definition send_mail (token payload : pyval) : M unit :=
  let url := sendmail_url in
  let headers := sendmail_headers token in
  emit (EvPost url headers payload) ;;
  let response := mail_endpoint w url headers payload in
  if (status_code response =? 202)%Z then
    log_info "Email sent successfully."
  else
    let detail :=
      match json_body response with
      | Some parsed => py_str repr_str parsed
      | None => text response
      end in
    raise HTTPError
      ("Graph API returned " ++ str_of_int (status_code response) ++ ": "
       ++ detail).

(** The [try] block of the entry point. *)
Definition pipeline : M unit :=
  validate_config ;;
  token <- acquire_token ;;
  attachment <-
    match ATTACHMENT_PATH cfg with
    | Some path =>
        if str_truthy path then build_attachment path else ret PNone
    | None => ret PNone
    end ;;
  let payload := build_payload attachment in
  send_mail token payload.

(** The [except] clauses, tried in the order they are written; each logs
    and raises [SystemExit(1)].  The result is the label that was logged,
    if any clause matched. *)
Definition handler_label (c : exn_class) : option string :=
  if isinstance c EnvironmentError then Some "Configuration error: "
  else if isinstance c FileNotFoundError then Some "Attachment error: "
  else if isinstance c RuntimeError then Some "Authentication error: "
  else if isinstance c HTTPError then Some "Send failed: "
  else None.

Record run : Type := Run { exit_code : Z; trace : list event }.

(** The whole process: exit status 0 when the block completes, 1 after a
    handler (or after the traceback of an exception no clause takes). *)
Definition main : run :=
  match pipeline with
  | (inr _, t) => Run 0 t
  | (inl e, t) =>
      match handler_label (exn_cls e) with
      | Some label => Run 1 (t ++ [EvLog ERROR (label ++ exn_msg e)])
      | None => Run 1 t
      end
  end.

End Script.

(** ** The stages of a run, named

    The pieces of [pipeline] that the statements about whole runs refer
    to: the document the identity provider answers with, the request that
    fetches it, and the third statement of the [try] block. *)

Definition token_document (cfg : config) (w : world) : pydict :=
  token_endpoint w (CLIENT_ID cfg) (AUTHORITY cfg) (CLIENT_SECRET cfg) SCOPE.

Definition token_request (cfg : config) : event :=
  EvTokenRequest (CLIENT_ID cfg) (AUTHORITY cfg) (CLIENT_SECRET cfg) SCOPE.

(** [build_attachment(ATTACHMENT_PATH) if ATTACHMENT_PATH else None] *)
Definition attachment_stage (guess_type : string -> option string)
    (cfg : config) (w : world) : M pyval :=
  match ATTACHMENT_PATH cfg with
  | Some path =>
      if str_truthy path then build_attachment guess_type w path else ret PNone
  | None => ret PNone
  end.

(** The answer of the mail endpoint to the request [send_mail] makes. *)
Definition mail_answer (repr_str : string -> string) (cfg : config) (w : world)
    (token payload : pyval) : http_response :=
  mail_endpoint w (sendmail_url cfg) (sendmail_headers repr_str token) payload.

(** [detail] in [send_mail]: the parsed body, or the text when parsing
    raises. *)
Definition failure_detail (repr_str : string -> string) (r : http_response)
    : string :=
  match json_body r with
  | Some parsed => py_str repr_str parsed
  | None => text r
  end.

(** The messages of the three exceptions the script builds itself. *)
Definition missing_message (cfg : config) : string :=
  "Missing required environment variable(s): "
  ++ join ", " (missing_variables cfg) ++ nl
  ++ "Set them in your shell or a .env file before running this script.".

Definition auth_message (repr_str : string -> string) (doc : pydict) : string :=
  "Authentication failed. Error: "
  ++ py_str repr_str (dict_get "error" doc) ++ " — "
  ++ py_str repr_str (dict_get "error_description" doc).

Definition send_failure_message (repr_str : string -> string)
    (r : http_response) : string :=
  "Graph API returned " ++ str_of_int (status_code r) ++ ": "
  ++ failure_detail repr_str r.

Definition acquired : event := EvLog INFO "Access token acquired.".
Definition sent : event := EvLog INFO "Email sent successfully.".

(** A field of the message inside a request body. *)
Definition message_field (k : string) (payload : pyval) : option pyval :=
  match message_of payload with
  | Some message => field k message
  | None => None
  end.

(** A character of the Base64 alphabet. *)
Definition is_b64_digit (c : ascii) : Prop := exists n, b64_value c = Some n.

(** The labels an ERROR line of [main] can start with. *)
Definition labels : list string :=
  ["Configuration error: "; "Authentication error: "; "Send failed: "].

Definition is_post (e : event) : bool :=
  match e with EvPost _ _ _ => true | _ => false end.

Definition is_token_request (e : event) : bool :=
  match e with EvTokenRequest _ _ _ _ => true | _ => false end.

Definition is_file_read (e : event) : bool :=
  match e with EvFileRead _ => true | _ => false end.

Definition count (p : event -> bool) (t : list event) : nat :=
  List.length (filter p t).

(** ** Sample configurations and worlds

    The configuration block as the repository ships it, with credentials
    filled in, and the variations the examples below run the script on. *)

Definition shipped_config : config :=
  Config "client-id" "client-secret" "tenant-id" "reports@yourdomain.com"
    (RList ["recipient@yourdomain.com"]) "Automated Report"
    "Please find the attached report." "Text" None.

Definition with_credentials (cid secret tenant : string) (c : config) : config :=
  Config cid secret tenant (SENDER_EMAIL c) (RECIPIENT_EMAIL c)
    (EMAIL_SUBJECT c) (EMAIL_BODY c) (EMAIL_BODY_TYPE c) (ATTACHMENT_PATH c).

Definition with_recipient (r : recipient_value) (c : config) : config :=
  Config (CLIENT_ID c) (CLIENT_SECRET c) (TENANT_ID c) (SENDER_EMAIL c) r
    (EMAIL_SUBJECT c) (EMAIL_BODY c) (EMAIL_BODY_TYPE c) (ATTACHMENT_PATH c).

Definition with_attachment (p : option string) (c : config) : config :=
  Config (CLIENT_ID c) (CLIENT_SECRET c) (TENANT_ID c) (SENDER_EMAIL c)
    (RECIPIENT_EMAIL c) (EMAIL_SUBJECT c) (EMAIL_BODY c) (EMAIL_BODY_TYPE c) p.

(** A disk with one regular file and one directory. *)
Definition sample_fs (path : string) : option fs_node :=
  if path =? "/reports/output.xlsx" then Some (RegularFile [x4d; x61; x6e; xff])
  else if path =? "/reports" then Some Directory
  else None.

Definition token_granted : pydict :=
  [("token_type", PStr "Bearer"); ("expires_in", PInt 3599);
   ("access_token", PStr "T")].

Definition token_refused : pydict :=
  [("error", PStr "invalid_client");
   ("error_description", PStr "AADSTS7000215: Invalid client secret provided.")].

Definition dq : string := String (ascii_of_nat 34) EmptyString.

Definition bad_request : http_response :=
  Response 400
    (Some (PDict [("error", PDict [("message", PStr "bad request")])]))
    ("{" ++ dq ++ "error" ++ dq ++ ":{" ++ dq ++ "message" ++ dq ++ ":"
     ++ dq ++ "bad request" ++ dq ++ "}}").

Definition sample_world (token : pydict) (answer : http_response) : world :=
  World sample_fs (fun _ _ _ _ => token) (fun _ _ _ => answer).

(** A [repr] for strings without quotes or escapes in them. *)
Definition plain_repr (s : string) : string := "'" ++ s ++ "'".

Definition no_mime_table (path : string) : option string := None.

Definition accepted : http_response := Response 202 None "".

(** * Properties *)

(** ** Base64: decoding undoes encoding *)

Module Base64Facts.

Lemma digit_cases (P : N -> Prop) :
  (forall i, (i < 64)%nat -> P (N.of_nat i)) ->
  forall n, (n < 64)%N -> P n.
Proof.
  intros H n Hn. rewrite <- (N2Nat.id n). apply H. lia.
Qed.

Ltac each_digit :=
  intros n Hn; pattern n; apply digit_cases; [clear n Hn | exact Hn];
  intros i Hi;
  do 64 (destruct i as [|i]; [vm_compute; reflexivity|]);
  exfalso; lia.

Lemma value_digit : forall n, (n < 64)%N -> b64_value (b64_digit n) = Some n.
Proof. each_digit. Qed.

Lemma digit_not_pad :
  forall n, (n < 64)%N -> Ascii.eqb (b64_digit n) b64_pad = false.
Proof. each_digit. Qed.

Lemma sextet_lt k g : (sextet k g < 64)%N.
Proof. unfold sextet. apply N.mod_lt. discriminate. Qed.

Lemma byte_lt (b : byte) : (Byte.to_N b < 256)%N.
Proof. pose proof (Byte.to_N_bounded b). lia. Qed.

Lemma octet_of_byte (b : byte) k g :
  ((g / 256 ^ k) mod 256 = Byte.to_N b)%N -> octet k g = b.
Proof.
  intros H. unfold octet. rewrite H, Byte.of_to_N. reflexivity.
Qed.

Ltac arith :=
  unfold ungroup, sextet, group24;
  change (64 ^ 3)%N with 262144%N; change (64 ^ 2)%N with 4096%N;
  change (64 ^ 1)%N with 64%N; change (64 ^ 0)%N with 1%N;
  change (256 ^ 2)%N with 65536%N; change (256 ^ 1)%N with 256%N;
  change (256 ^ 0)%N with 1%N;
  change (Byte.to_N x00) with 0%N;
  repeat match goal with
         | b : byte |- _ =>
             let H := fresh "B" in
             pose proof (byte_lt b) as H; revert H;
             generalize (Byte.to_N b); clear b; intros b H
         end;
  zify; Z.to_euclidean_division_equations; lia.

Lemma regroup3 a b c :
  let g := group24 a b c in
  ungroup (sextet 3 g) (sextet 2 g) (sextet 1 g) (sextet 0 g) = g.
Proof. cbv zeta. arith. Qed.

Lemma regroup2 a b :
  let g := group24 a b x00 in
  ungroup (sextet 3 g) (sextet 2 g) (sextet 1 g) 0 = g.
Proof. cbv zeta. arith. Qed.

Lemma regroup1 a :
  let g := group24 a x00 x00 in
  ungroup (sextet 3 g) (sextet 2 g) 0 0 = g.
Proof. cbv zeta. arith. Qed.

Lemma octets a b c :
  let g := group24 a b c in
  octet 2 g = a /\ octet 1 g = b /\ octet 0 g = c.
Proof.
  cbv zeta. repeat split; apply octet_of_byte; arith.
Qed.

End Base64Facts.

Section Base64RoundTrip.
Import Base64Facts.

(** One step of the decoder on a text that starts with four characters. *)
Lemma b64decode_step c1 c2 c3 c4 rest :
  b64decode (String c1 (String c2 (String c3 (String c4 rest)))) =
  match b64_value c1, b64_value c2 with
  | Some v1, Some v2 =>
      if Ascii.eqb c4 b64_pad then
        match rest with
        | EmptyString =>
            if Ascii.eqb c3 b64_pad then Some [octet 2 (ungroup v1 v2 0 0)]
            else
              match b64_value c3 with
              | Some v3 =>
                  let g := ungroup v1 v2 v3 0 in Some [octet 2 g; octet 1 g]
              | None => None
              end
        | String _ _ => None
        end
      else
        match b64_value c3, b64_value c4, b64decode rest with
        | Some v3, Some v4, Some tail =>
            let g := ungroup v1 v2 v3 v4 in
            Some (octet 2 g :: octet 1 g :: octet 0 g :: tail)
        | _, _, _ => None
        end
  | _, _ => None
  end.
Proof. reflexivity. Qed.

Lemma b64decode_one a : b64decode (b64encode [a]) = Some [a].
Proof.
  cbn [b64encode]. rewrite b64decode_step.
  rewrite !value_digit by apply sextet_lt.
  change (Ascii.eqb b64_pad b64_pad) with true. cbv iota.
  rewrite regroup1. destruct (octets a x00 x00) as [-> _]. reflexivity.
Qed.

Lemma b64decode_two a b : b64decode (b64encode [a; b]) = Some [a; b].
Proof.
  cbn [b64encode]. rewrite b64decode_step.
  rewrite !value_digit by apply sextet_lt.
  change (Ascii.eqb b64_pad b64_pad) with true. cbv iota.
  rewrite digit_not_pad by apply sextet_lt. cbv zeta.
  rewrite regroup2. destruct (octets a b x00) as [-> [-> _]]. reflexivity.
Qed.

Lemma b64decode_three a b c rest :
  b64decode (b64encode rest) = Some rest ->
  b64decode (b64encode (a :: b :: c :: rest)) = Some (a :: b :: c :: rest).
Proof.
  intros IH. cbn [b64encode]. rewrite b64decode_step.
  rewrite !value_digit by apply sextet_lt.
  rewrite digit_not_pad by apply sextet_lt.
  rewrite IH. cbv zeta.
  rewrite regroup3. destruct (octets a b c) as [-> [-> ->]]. reflexivity.
Qed.

(** Induction three elements at a time: the statement is carried for a
    list and for the list with one and two more elements in front. *)
Lemma triples_ind {A} (P : list A -> Prop) :
  P [] -> (forall a, P [a]) -> (forall a b, P [a; b]) ->
  (forall a b c l, P l -> P (a :: b :: c :: l)) ->
  forall l, P l.
Proof.
  intros H0 H1 H2 H3 l.
  enough (P l /\ (forall a, P (a :: l)) /\ (forall a b, P (a :: b :: l)))
    by tauto.
  induction l as [|x l (IH0 & IH1 & IH2)]; auto.
Qed.

Lemma b64decode_b64encode data : b64decode (b64encode data) = Some data.
Proof.
  induction data as [| a | a b | a b c rest IH] using triples_ind.
  - reflexivity.
  - apply b64decode_one.
  - apply b64decode_two.
  - apply b64decode_three, IH.
Qed.

(** The encoded text is ASCII, so [.decode("utf-8")] turns the bytes
    [b64encode] returns into a [str] with the same characters. *)
Lemma digit_ascii :
  forall n, (n < 64)%N -> (N_of_ascii (b64_digit n) < 128)%N.
Proof. each_digit. Qed.

Lemma b64encode_ascii data :
  Forall (fun c => (N_of_ascii c < 128)%N)
         (list_ascii_of_string (b64encode data)).
Proof.
  assert (N_of_ascii b64_pad < 128)%N as Hpad by reflexivity.
  induction data as [| a | a b | a b c rest IH] using triples_ind;
    cbn [b64encode list_ascii_of_string];
    repeat (constructor; try apply digit_ascii; try apply sextet_lt;
            try exact Hpad);
    assumption.
Qed.

End Base64RoundTrip.

(** ** Occurrence of one string in another *)

Section Embeds.

Lemma append_assoc (a b c : string) : (a ++ b) ++ c = a ++ (b ++ c).
Proof. induction a as [|x a IH]; simpl; [reflexivity | now rewrite IH]. Qed.

Lemma append_empty_r (a : string) : a ++ "" = a.
Proof. induction a as [|x a IH]; simpl; [reflexivity | now rewrite IH]. Qed.

Lemma embeds_refl s : embeds s s.
Proof. exists "", "". simpl. now rewrite append_empty_r. Qed.

Lemma embeds_left a t s : embeds t s -> embeds (a ++ t) s.
Proof.
  intros (pre & post & ->). exists (a ++ pre), post.
  now rewrite append_assoc.
Qed.

Lemma embeds_right b t s : embeds t s -> embeds (t ++ b) s.
Proof.
  intros (pre & post & ->). exists pre, (post ++ b).
  now rewrite !append_assoc.
Qed.

Lemma embeds_join sep parts s : In s parts -> embeds (join sep parts) s.
Proof.
  induction parts as [|p parts IH]; [intros []|].
  intros [-> | Hin]; unfold join in *; cbn [concat].
  - destruct parts; [apply embeds_refl | apply embeds_right, embeds_refl].
  - destruct parts as [|q parts]; [destruct Hin|].
    apply embeds_left, embeds_left, IH, Hin.
Qed.

Lemma prefix_append s t :
  String.prefix s t = true -> exists post, t = s ++ post.
Proof.
  revert t. induction s as [|a s IH]; intros t H.
  - exists t. reflexivity.
  - destruct t as [|b t]; [discriminate|]. simpl in H.
    destruct (ascii_dec a b) as [-> | _]; [|discriminate].
    destruct (IH t H) as [post ->]. exists post. reflexivity.
Qed.

(** The executable test is sound, so an occurrence in a concrete message
    can be settled by running it. *)
Lemma contains_embeds t s : contains t s = true -> embeds t s.
Proof.
  induction t as [|c t IH]; cbn [contains]; intros H;
    apply orb_true_iff in H as [H | H]; try discriminate.
  - destruct (prefix_append _ _ H) as [post Hp]. exists "", post. exact Hp.
  - destruct (prefix_append _ _ H) as [post Hp]. exists "", post. exact Hp.
  - destruct (IH H) as (pre & post & ->). exists (String c pre), post.
    reflexivity.
Qed.

End Embeds.

Create HintDb embeds.
#[local] Hint Resolve embeds_refl embeds_left embeds_right : embeds.

(** ** Lookups in a [dict] *)

Lemma dict_mem_lookup k d :
  dict_mem k d = true <-> exists v, dict_lookup k d = Some v.
Proof.
  induction d as [|[k' v'] d IH]; simpl.
  - split; [discriminate | intros [v H]; discriminate].
  - destruct (String.eqb k k'); simpl.
    + split; [eauto | reflexivity].
    + exact IH.
Qed.

Lemma dict_get_lookup k d v : dict_lookup k d = Some v -> dict_get k d = v.
Proof. unfold dict_get. now intros ->. Qed.

(** ** Credential Validator *)

Section ValidatorFacts.
Variable cfg : config.

Lemma missing_variables_complete name value :
  In (name, value) (required_variables cfg) -> value = "" ->
  In name (missing_variables cfg).
Proof.
  intros Hin ->. unfold missing_variables.
  apply (in_map fst _ (name, "")), filter_In. split; [exact Hin|reflexivity].
Qed.

Lemma missing_variables_none :
  CLIENT_ID cfg <> "" -> CLIENT_SECRET cfg <> "" -> TENANT_ID cfg <> "" ->
  missing_variables cfg = [].
Proof.
  intros H1 H2 H3. unfold missing_variables, required_variables, str_truthy.
  apply String.eqb_neq in H1, H2, H3. cbn. now rewrite H1, H2, H3.
Qed.

Lemma missing_variables_some :
  CLIENT_ID cfg = "" \/ CLIENT_SECRET cfg = "" \/ TENANT_ID cfg = "" ->
  nonempty (missing_variables cfg) = true.
Proof.
  intros H.
  assert (exists name, In name (missing_variables cfg)) as [name Hin].
  { destruct H as [H | [H | H]];
      eexists; eapply missing_variables_complete; try exact H;
      unfold required_variables; simpl; eauto. }
  destruct (missing_variables cfg); [destruct Hin | reflexivity].
Qed.

End ValidatorFacts.

(** C3.  With the three credentials non-empty [validate_config] returns
    nothing (and does nothing); with one or more of them empty it raises
    [EnvironmentError], the script's configuration error, and the message
    contains the name of every variable that is empty, each of them and not
    only the first. *)
Theorem validate_config_names_every_missing (cfg : config) :
  (CLIENT_ID cfg <> "" -> CLIENT_SECRET cfg <> "" -> TENANT_ID cfg <> "" ->
   validate_config cfg = ret tt)
  /\ (CLIENT_ID cfg = "" \/ CLIENT_SECRET cfg = "" \/ TENANT_ID cfg = "" ->
      exists msg,
        validate_config cfg = raise EnvironmentError msg
        /\ msg = "Missing required environment variable(s): "
                 ++ join ", " (missing_variables cfg) ++ nl
                 ++ "Set them in your shell or a .env file before running this script."
        /\ forall name value,
            In (name, value) (required_variables cfg) -> value = "" ->
            embeds msg name).
Proof.
  split.
  - intros H1 H2 H3. unfold validate_config.
    now rewrite (missing_variables_none cfg H1 H2 H3).
  - intros H. unfold validate_config.
    rewrite (missing_variables_some cfg H).
    eexists. split; [reflexivity|]. split; [reflexivity|].
    intros name value Hin Hv.
    apply embeds_left, embeds_right, embeds_join.
    eapply missing_variables_complete; eauto.
Qed.

Lemma validate_config_names_every_missing_witness :
  validate_config shipped_config = ret tt
  /\ exists msg,
      validate_config (with_credentials "" "secret" "" shipped_config)
      = raise EnvironmentError msg
      /\ embeds msg "GRAPH_CLIENT_ID" /\ embeds msg "GRAPH_TENANT_ID".
Proof.
  split.
  - apply (validate_config_names_every_missing shipped_config); discriminate.
  - destruct (validate_config_names_every_missing
                (with_credentials "" "secret" "" shipped_config)) as [_ H].
    destruct (H (or_introl eq_refl)) as (msg & Hraise & _ & Hnames).
    exists msg. split; [exact Hraise|]. split.
    + apply (Hnames _ ""); [simpl; auto | reflexivity].
    + apply (Hnames _ ""); [simpl; auto | reflexivity].
Defined.

(** Runs the monad's plumbing and nothing else (strings stay folded). *)
Ltac run_monad :=
  cbv beta iota zeta
      delta [outcome effects bind emit raise ret log_info fst snd].

(** ** Token Acquirer *)

(** C1.  Whatever document the token endpoint answers with: when it has an
    [access_token] entry, [acquire_token] returns exactly its value; when it
    has none, [acquire_token] raises [RuntimeError], the script's
    authentication error, with the document's [error] and
    [error_description] inserted unchanged into the message. *)
Theorem acquire_token_returns_or_reports
    (repr_str : string -> string) (cfg : config) (w : world) :
  let result :=
    token_endpoint w (CLIENT_ID cfg) (AUTHORITY cfg) (CLIENT_SECRET cfg) SCOPE in
  (forall T, dict_lookup "access_token" result = Some T ->
             outcome (acquire_token repr_str cfg w) = inr T)
  /\ (dict_mem "access_token" result = false ->
      exists msg,
        outcome (acquire_token repr_str cfg w) = inl (Raise RuntimeError msg)
        /\ msg = "Authentication failed. Error: "
                 ++ py_str repr_str (dict_get "error" result) ++ " — "
                 ++ py_str repr_str (dict_get "error_description" result)
        /\ (forall code, dict_lookup "error" result = Some (PStr code) ->
                         embeds msg code)
        /\ (forall text, dict_lookup "error_description" result = Some (PStr text) ->
                         embeds msg text)).
Proof.
  intros result. split.
  - intros T HT. unfold acquire_token. fold result.
    assert (dict_mem "access_token" result = true) as ->
        by (apply dict_mem_lookup; eauto).
    unfold dict_item. rewrite HT. reflexivity.
  - intros Hno. unfold acquire_token. fold result. rewrite Hno.
    eexists. split; [reflexivity|]. split; [reflexivity|]. split.
    + intros code H. rewrite (dict_get_lookup _ _ _ H). simpl py_str.
      auto with embeds.
    + intros text H. rewrite (dict_get_lookup _ _ _ H). simpl py_str.
      auto with embeds.
Qed.

Lemma acquire_token_returns_or_reports_witness :
  outcome (acquire_token plain_repr shipped_config
             (sample_world token_granted bad_request)) = inr (PStr "T")
  /\ exists msg,
      outcome (acquire_token plain_repr shipped_config
                 (sample_world token_refused bad_request))
      = inl (Raise RuntimeError msg)
      /\ embeds msg "invalid_client"
      /\ embeds msg "AADSTS7000215: Invalid client secret provided.".
Proof.
  split.
  - apply (acquire_token_returns_or_reports plain_repr shipped_config
             (sample_world token_granted bad_request)).
    reflexivity.
  - destruct (acquire_token_returns_or_reports plain_repr shipped_config
                (sample_world token_refused bad_request)) as [_ H].
    destruct (H eq_refl) as (msg & Hraise & _ & Hcode & Htext).
    exists msg. split; [exact Hraise|]. split.
    + apply Hcode. reflexivity.
    + apply Htext. reflexivity.
Defined.

(** ** Mail Submitter *)

(** C2.  [send_mail] returns (with no value) exactly when the status code of
    the answer is 202.  For any other status it raises [HTTPError], the
    script's send failure, and the message contains the status code and the
    body: the parsed JSON when [response.json()] succeeds, the raw text when
    it does not. *)
Theorem send_mail_succeeds_iff_202
    (repr_str : string -> string) (cfg : config) (w : world)
    (token payload : pyval) :
  let response :=
    mail_endpoint w (sendmail_url cfg) (sendmail_headers repr_str token)
      payload in
  (outcome (send_mail repr_str cfg w token payload) = inr tt
   <-> status_code response = 202%Z)
  /\ (status_code response <> 202%Z ->
      exists msg,
        outcome (send_mail repr_str cfg w token payload)
        = inl (Raise HTTPError msg)
        /\ embeds msg (str_of_int (status_code response))
        /\ (forall parsed, json_body response = Some parsed ->
               msg = "Graph API returned " ++ str_of_int (status_code response)
                     ++ ": " ++ py_str repr_str parsed
               /\ embeds msg (py_str repr_str parsed))
        /\ (json_body response = None ->
               msg = "Graph API returned " ++ str_of_int (status_code response)
                     ++ ": " ++ text response
               /\ embeds msg (text response))).
Proof.
  intros response. unfold send_mail. cbv zeta. fold response. split.
  - destruct (Z.eqb_spec (status_code response) 202) as [E|E]; cbn.
    + tauto.
    + split; [discriminate | contradiction].
  - intros Hne. apply Z.eqb_neq in Hne. rewrite Hne. run_monad.
    eexists. split; [reflexivity|]. split; [auto with embeds|]. split.
    + intros parsed ->. split; [reflexivity | auto with embeds].
    + intros ->. split; [reflexivity | auto with embeds].
Qed.

Lemma send_mail_succeeds_iff_202_witness :
  exists msg,
    outcome (send_mail plain_repr shipped_config
               (sample_world token_granted bad_request) (PStr "T") PNone)
    = inl (Raise HTTPError msg)
    /\ embeds msg "400"
    /\ embeds msg "{'error': {'message': 'bad request'}}"
    /\ embeds msg "bad request".
Proof.
  destruct (send_mail_succeeds_iff_202 plain_repr shipped_config
              (sample_world token_granted bad_request) (PStr "T") PNone)
    as [_ H].
  destruct H as (msg & Hraise & Hcode & Hjson & _); [discriminate|].
  destruct (Hjson _ eq_refl) as [Hmsg Hbody].
  exists msg. split; [exact Hraise|]. split; [exact Hcode|].
  split; [exact Hbody|].
  rewrite Hmsg. apply contains_embeds. reflexivity.
Defined.

(** ** Payload Builder *)


Section BuilderFacts.
Variable cfg : config.

Lemma to_recipients_build_payload att :
  to_recipients (build_payload cfg att)
  = Some (PList (map recipient_entry (recipients cfg))).
Proof.
  unfold build_payload. destruct (truthy att); reflexivity.
Qed.

Lemma attachments_of_build_payload att :
  attachments_of (build_payload cfg att)
  = if truthy att then Some (PList [att]) else None.
Proof.
  unfold build_payload. destruct (truthy att); reflexivity.
Qed.

End BuilderFacts.

(** C4.  A recipient given as one string [a] yields the one-element list
    [[{"emailAddress": {"address": a}}]]; a sequence of addresses yields one
    entry per address, at the same position, so order is kept and repeated
    addresses stay repeated. *)
Theorem build_payload_recipients (cfg : config) (attachment : pyval) :
  (forall a, RECIPIENT_EMAIL cfg = RStr a ->
     to_recipients (build_payload cfg attachment)
     = Some (PList [PDict [("emailAddress", PDict [("address", PStr a)])]]))
  /\ (forall l, RECIPIENT_EMAIL cfg = RList l ->
       exists entries,
         to_recipients (build_payload cfg attachment) = Some (PList entries)
         /\ List.length entries = List.length l
         /\ forall i,
             nth_error entries i
             = option_map
                 (fun addr =>
                    PDict [("emailAddress", PDict [("address", PStr addr)])])
                 (nth_error l i)).
Proof.
  split.
  - intros a Ha. rewrite to_recipients_build_payload.
    unfold recipients. now rewrite Ha.
  - intros l Hl. rewrite to_recipients_build_payload.
    unfold recipients. rewrite Hl.
    eexists. split; [reflexivity|]. split.
    + apply length_map.
    + intros i. apply nth_error_map.
Qed.

Lemma build_payload_recipients_witness :
  to_recipients (build_payload (with_recipient (RStr "a@b.com") shipped_config) PNone)
  = Some (PList [PDict [("emailAddress", PDict [("address", PStr "a@b.com")])]])
  /\ exists entries,
      to_recipients
        (build_payload
           (with_recipient (RList ["a@b.com"; "c@d.com"; "a@b.com"]) shipped_config)
           PNone)
      = Some (PList entries)
      /\ List.length entries = 3%nat.
Proof.
  split.
  - apply (build_payload_recipients
             (with_recipient (RStr "a@b.com") shipped_config) PNone).
    reflexivity.
  - destruct (build_payload_recipients
                (with_recipient (RList ["a@b.com"; "c@d.com"; "a@b.com"])
                   shipped_config) PNone) as [_ H].
    destruct (H _ eq_refl) as (entries & He & Hlen & _).
    exists entries. split; [exact He | exact Hlen].
Defined.

(** C5, as the code has it.  With no descriptor ([None]) the message has no
    [attachments] key at all; with a descriptor that is not the empty
    mapping the key is there and holds the one-element list of that
    descriptor. *)
Theorem build_payload_attachments_field (cfg : config) :
  attachments_of (build_payload cfg PNone) = None
  /\ forall d, d <> [] ->
       attachments_of (build_payload cfg (PDict d)) = Some (PList [PDict d]).
Proof.
  split.
  - apply attachments_of_build_payload.
  - intros d Hd. rewrite attachments_of_build_payload.
    destruct d; [contradiction | reflexivity].
Qed.

Lemma build_payload_attachments_field_witness :
  attachments_of
    (build_payload shipped_config (PDict [("name", PStr "output.xlsx")]))
  = Some (PList [PDict [("name", PStr "output.xlsx")]]).
Proof.
  apply (build_payload_attachments_field shipped_config). discriminate.
Defined.

(** C5, counterexample.  The descriptor [{}] is supplied and the message
    still has no [attachments] key, let alone one holding [[{}]]. *)
Lemma build_payload_empty_descriptor_not_attached :
  attachments_of (build_payload shipped_config (PDict [])) = None
  /\ attachments_of (build_payload shipped_config (PDict []))
     <> Some (PList [PDict []]).
Proof. split; [reflexivity | discriminate]. Qed.

(** C10.  The test is [if attachment:], the truth value of the descriptor:
    the [attachments] key holds [[attachment]] when the descriptor is truthy
    and is missing otherwise, and the empty mapping gives the very payload
    that no descriptor gives. *)
Theorem build_payload_tests_truthiness (cfg : config) :
  build_payload cfg (PDict []) = build_payload cfg PNone
  /\ attachments_of (build_payload cfg (PDict [])) = None
  /\ forall attachment,
      attachments_of (build_payload cfg attachment)
      = if truthy attachment then Some (PList [attachment]) else None.
Proof.
  split; [reflexivity|]. split; [reflexivity|].
  apply attachments_of_build_payload.
Qed.

(** C8, as the code has it.  The builder makes one entry per address and
    checks nothing: the recipient list of the request is non-empty exactly
    when the configured recipient is a single string or a sequence with an
    address in it. *)
Theorem build_payload_recipient_count (cfg : config) (attachment : pyval) :
  exists entries,
    to_recipients (build_payload cfg attachment) = Some (PList entries)
    /\ List.length entries = List.length (recipients cfg)
    /\ (entries <> [] <-> RECIPIENT_EMAIL cfg <> RList []).
Proof.
  rewrite to_recipients_build_payload. eexists. split; [reflexivity|].
  split; [apply length_map|].
  unfold recipients.
  destruct (RECIPIENT_EMAIL cfg) as [a | [|a l]]; simpl.
  - split; intros _; discriminate.
  - split; intros H; contradiction H; reflexivity.
  - split; intros _; discriminate.
Qed.

(** C8, counterexample.  The builder accepts the empty sequence of
    recipients and turns it into an empty recipient list. *)
Lemma build_payload_no_recipients :
  to_recipients (build_payload (with_recipient (RList []) shipped_config) PNone)
  = Some (PList []).
Proof. reflexivity. Qed.

(** ** Attachment Encoder *)

Section EncoderFacts.
Variable guess_type : string -> option string.
Variable w : world.

Lemma isfile_regular path :
  isfile w path = true <-> exists content, fs w path = Some (RegularFile content).
Proof.
  unfold isfile. destruct (fs w path) as [[content|]|].
  - split; [eauto | reflexivity].
  - split; [discriminate | intros [c H]; discriminate].
  - split; [discriminate | intros [c H]; discriminate].
Qed.

Lemma build_attachment_missing path :
  isfile w path = false ->
  build_attachment guess_type w path
  = raise FileNotFoundError ("Attachment not found: " ++ path).
Proof. intros H. unfold build_attachment. now rewrite H. Qed.

Lemma build_attachment_regular path content :
  fs w path = Some (RegularFile content) ->
  build_attachment guess_type w path
  = ( inr (PDict [ ("@odata.type", PStr "#microsoft.graph.fileAttachment");
                   ("name", PStr (basename path));
                   ("contentType", PStr (mime_of guess_type path));
                   ("contentBytes", PStr (b64encode content)) ]),
      [ EvFileRead path;
        EvLog INFO ("Attachment ready: " ++ basename path ++ " ("
                    ++ mime_of guess_type path ++ ")") ] ).
Proof.
  intros H. unfold build_attachment, isfile, read_binary. rewrite H.
  reflexivity.
Qed.

End EncoderFacts.

(** C6.  For a path that names a regular file, [build_attachment] returns a
    descriptor, and Base64-decoding its [contentBytes] gives back the bytes
    of the file, all of them and no other. *)
Theorem build_attachment_round_trip
    (guess_type : string -> option string) (w : world)
    (path : string) (content : list byte) :
  fs w path = Some (RegularFile content) ->
  exists descriptor encoded,
    outcome (build_attachment guess_type w path) = inr descriptor
    /\ field "contentBytes" descriptor = Some (PStr encoded)
    /\ b64decode encoded = Some content.
Proof.
  intros H. rewrite (build_attachment_regular guess_type w path content H).
  eexists. eexists. split; [reflexivity|]. split; [reflexivity|].
  apply b64decode_b64encode.
Qed.

Lemma build_attachment_round_trip_witness :
  exists descriptor encoded,
    outcome (build_attachment no_mime_table
               (sample_world token_granted accepted) "/reports/output.xlsx")
    = inr descriptor
    /\ field "contentBytes" descriptor = Some (PStr encoded)
    /\ b64decode encoded = Some [x4d; x61; x6e; xff].
Proof.
  apply (build_attachment_round_trip no_mime_table
           (sample_world token_granted accepted) "/reports/output.xlsx").
  reflexivity.
Defined.

(** C9.  A path that names nothing, or names a directory, makes
    [build_attachment] raise [FileNotFoundError], the script's
    attachment-not-found error, before any effect: no file is read.  A path
    that names a regular file makes it return a descriptor, after one read
    of that file.  So it raises that error exactly when the path does not
    name a regular file. *)
Theorem build_attachment_raises_iff_not_regular
    (guess_type : string -> option string) (w : world) (path : string) :
  (fs w path = None \/ fs w path = Some Directory ->
   outcome (build_attachment guess_type w path)
   = inl (Raise FileNotFoundError ("Attachment not found: " ++ path))
   /\ effects (build_attachment guess_type w path) = [])
  /\ (forall content, fs w path = Some (RegularFile content) ->
      exists mime,
        outcome (build_attachment guess_type w path)
        = inr (PDict [ ("@odata.type", PStr "#microsoft.graph.fileAttachment");
                       ("name", PStr (basename path));
                       ("contentType", PStr mime);
                       ("contentBytes", PStr (b64encode content)) ])
        /\ In (EvFileRead path) (effects (build_attachment guess_type w path)))
  /\ ((exists msg,
         outcome (build_attachment guess_type w path)
         = inl (Raise FileNotFoundError msg))
      <-> ~ exists content, fs w path = Some (RegularFile content)).
Proof.
  split; [|split].
  - intros H.
    assert (isfile w path = false) as Hf
        by (unfold isfile; destruct H as [-> | ->]; reflexivity).
    rewrite (build_attachment_missing guess_type w path Hf). split; reflexivity.
  - intros content H.
    rewrite (build_attachment_regular guess_type w path content H).
    eexists. split; [reflexivity | left; reflexivity].
  - split.
    + intros [msg Hm] [content H].
      rewrite (build_attachment_regular guess_type w path content H) in Hm.
      discriminate.
    + intros H. eexists.
      rewrite build_attachment_missing; [reflexivity|].
      destruct (isfile w path) eqn:E; [|reflexivity].
      apply isfile_regular in E. contradiction.
Qed.

Lemma build_attachment_raises_iff_not_regular_witness :
  (outcome (build_attachment no_mime_table
              (sample_world token_granted accepted) "/reports")
   = inl (Raise FileNotFoundError "Attachment not found: /reports")
   /\ effects (build_attachment no_mime_table
                 (sample_world token_granted accepted) "/reports") = [])
  /\ exists mime,
      outcome (build_attachment no_mime_table
                 (sample_world token_granted accepted) "/reports/output.xlsx")
      = inr (PDict [ ("@odata.type", PStr "#microsoft.graph.fileAttachment");
                     ("name", PStr "output.xlsx");
                     ("contentType", PStr mime);
                     ("contentBytes", PStr "TWFu/w==") ]).
Proof.
  split.
  - apply (build_attachment_raises_iff_not_regular no_mime_table
             (sample_world token_granted accepted) "/reports").
    right. reflexivity.
  - destruct (build_attachment_raises_iff_not_regular no_mime_table
                (sample_world token_granted accepted) "/reports/output.xlsx")
      as (_ & H & _).
    destruct (H _ eq_refl) as (mime & Hm & _).
    exists mime. exact Hm.
Defined.

(** ** Entry point *)

Section EntryPointFacts.
Variable repr_str : string -> string.
Variable guess_type : string -> option string.
Variable HTTPError_is_OSError : bool.

(** The exit status is 0 when the [try] block completes and 1 when
    anything is raised in it. *)
Lemma main_exit_code cfg w :
  exit_code (main repr_str guess_type HTTPError_is_OSError cfg w)
  = match outcome (pipeline repr_str guess_type cfg w) with
    | inr _ => 0%Z
    | inl _ => 1%Z
    end.
Proof.
  unfold main, outcome.
  destruct (pipeline repr_str guess_type cfg w) as [[e | u] t]; simpl.
  - destruct (handler_label HTTPError_is_OSError (exn_cls e)); reflexivity.
  - reflexivity.
Qed.

(** The clause for [EnvironmentError] comes first and takes every
    [OSError], [FileNotFoundError] included. *)
Lemma handler_label_FileNotFoundError :
  handler_label HTTPError_is_OSError FileNotFoundError
  = Some "Configuration error: ".
Proof. reflexivity. Qed.

Lemma handler_label_EnvironmentError :
  handler_label HTTPError_is_OSError EnvironmentError
  = Some "Configuration error: ".
Proof. reflexivity. Qed.

Lemma handler_label_RuntimeError :
  handler_label HTTPError_is_OSError RuntimeError
  = Some "Authentication error: ".
Proof. reflexivity. Qed.

Lemma handler_label_HTTPError :
  handler_label HTTPError_is_OSError HTTPError
  = if HTTPError_is_OSError then Some "Configuration error: "
    else Some "Send failed: ".
Proof. destruct HTTPError_is_OSError; reflexivity. Qed.

(** The [except FileNotFoundError] clause is never the one that runs. *)
Lemma handler_label_never_attachment c :
  handler_label HTTPError_is_OSError c <> Some "Attachment error: ".
Proof. destruct c, HTTPError_is_OSError; discriminate. Qed.

(** Inside the [try] block nothing is logged at ERROR level. *)
Lemma pipeline_no_error_log cfg w msg :
  ~ In (EvLog ERROR msg) (effects (pipeline repr_str guess_type cfg w)).
Proof.
  unfold pipeline, validate_config.
  destruct (nonempty (missing_variables cfg)); [intros []|].
  unfold acquire_token, send_mail, dict_item.
  destruct (dict_mem _ _); [|run_monad; simpl; intuition discriminate].
  destruct (dict_lookup _ _); [|run_monad; simpl; intuition discriminate].
  destruct (ATTACHMENT_PATH cfg) as [path|];
    [destruct (str_truthy path)|];
    try (unfold build_attachment, read_binary, isfile;
         destruct (fs w path) as [[content|]|]);
    run_monad; simpl;
    repeat match goal with
           | |- context [if ?b then _ else _] => destruct b
           end; simpl; intuition discriminate.
Qed.

(** X19.  No run logs a line labelled as an attachment error: the
    [except FileNotFoundError] clause comes after [except EnvironmentError],
    which takes every [OSError], and is never reached. *)
Lemma main_never_logs_attachment_error cfg w msg :
  ~ In (EvLog ERROR ("Attachment error: " ++ msg))
       (trace (main repr_str guess_type HTTPError_is_OSError cfg w)).
Proof.
  pose proof (pipeline_no_error_log cfg w ("Attachment error: " ++ msg)) as Hp.
  unfold main. unfold effects in Hp.
  destruct (pipeline repr_str guess_type cfg w) as [[e | u] t];
    simpl in Hp; [|exact Hp].
  destruct (handler_label HTTPError_is_OSError (exn_cls e)) as [label|] eqn:Hl;
    [|exact Hp].
  simpl. intros Hin. apply in_app_or in Hin. destruct Hin as [Hin | Hin].
  - exact (Hp Hin).
  - destruct Hin as [Heq | []].
    destruct (exn_cls e), HTTPError_is_OSError;
      inversion Hl; subst label; simpl in Heq; discriminate.
Qed.

End EntryPointFacts.

(** C7, where the code departs from it.  With credentials set and a token
    granted, an [ATTACHMENT_PATH] that names no file ends the run with exit
    status 1, as the contract says, but the line that is logged carries the
    label of the configuration error: the [except EnvironmentError] clause
    is tried first and [FileNotFoundError] is an [OSError]. *)
Theorem main_missing_attachment_logged_as_configuration_error
    (repr_str : string -> string) (guess_type : string -> option string)
    (HTTPError_is_OSError : bool) :
  main repr_str guess_type HTTPError_is_OSError
    (with_attachment (Some "/reports/missing.xlsx") shipped_config)
    (sample_world token_granted accepted)
  = Run 1
      [ EvTokenRequest "client-id"
          "https://login.microsoftonline.com/tenant-id" "client-secret"
          ["https://graph.microsoft.com/.default"];
        EvLog INFO "Access token acquired.";
        EvLog ERROR
          "Configuration error: Attachment not found: /reports/missing.xlsx" ]
  /\ main repr_str guess_type HTTPError_is_OSError
       (with_credentials "client-id" "" "tenant-id" shipped_config)
       (sample_world token_granted accepted)
     = Run 1
         [ EvLog ERROR
             ("Configuration error: Missing required environment variable(s): "
              ++ "GRAPH_CLIENT_SECRET" ++ nl
              ++ "Set them in your shell or a .env file before running this script.") ]
  /\ handler_label HTTPError_is_OSError FileNotFoundError
     = handler_label HTTPError_is_OSError EnvironmentError.
Proof. repeat split; reflexivity. Qed.


(** * Whole runs

    What the [try] block and [main] do, stage by stage, for every
    configuration and every world. *)

Section Runs.
Variable repr_str : string -> string.
Variable guess_type : string -> option string.
Variable HTTPError_is_OSError : bool.
Variable cfg : config.
Variable w : world.

Lemma credentials_set_iff :
  missing_variables cfg = []
  <-> CLIENT_ID cfg <> "" /\ CLIENT_SECRET cfg <> "" /\ TENANT_ID cfg <> "".
Proof.
  unfold missing_variables, required_variables, str_truthy. cbn.
  destruct (String.eqb_spec (CLIENT_ID cfg) "") as [H1 | H1];
    destruct (String.eqb_spec (CLIENT_SECRET cfg) "") as [H2 | H2];
    destruct (String.eqb_spec (TENANT_ID cfg) "") as [H3 | H3];
    cbn; split; try discriminate; try tauto; intros (A & B & C); congruence.
Qed.

Lemma send_mail_run token payload :
  send_mail repr_str cfg w token payload
  = let r := mail_answer repr_str cfg w token payload in
    let post :=
      EvPost (sendmail_url cfg) (sendmail_headers repr_str token) payload in
    if (status_code r =? 202)%Z then (inr tt, [post; sent])
    else (inl (Raise HTTPError (send_failure_message repr_str r)), [post]).
Proof.
  unfold send_mail, mail_answer. cbv zeta.
  destruct (status_code _ =? 202)%Z; reflexivity.
Qed.

(** The ways through the [try] block. *)
Lemma pipeline_unconfigured :
  missing_variables cfg <> [] ->
  pipeline repr_str guess_type cfg w
  = raise EnvironmentError (missing_message cfg).
Proof.
  intros H. unfold pipeline, validate_config, missing_message.
  destruct (missing_variables cfg); [contradiction | reflexivity].
Qed.

Lemma pipeline_unauthenticated :
  missing_variables cfg = [] ->
  dict_mem "access_token" (token_document cfg w) = false ->
  pipeline repr_str guess_type cfg w
  = (inl (Raise RuntimeError (auth_message repr_str (token_document cfg w))),
     [token_request cfg]).
Proof.
  intros Hc Ht. unfold pipeline, validate_config, acquire_token.
  fold (token_document cfg w). rewrite Hc, Ht. reflexivity.
Qed.

Lemma pipeline_authenticated token :
  missing_variables cfg = [] ->
  dict_lookup "access_token" (token_document cfg w) = Some token ->
  pipeline repr_str guess_type cfg w
  = match attachment_stage guess_type cfg w with
    | (inl e, t) => (inl e, token_request cfg :: acquired :: t)
    | (inr attachment, t) =>
        let (r, t') :=
          send_mail repr_str cfg w token (build_payload cfg attachment) in
        (r, token_request cfg :: acquired :: (t ++ t')%list)
    end.
Proof.
  intros Hc Ht.
  assert (dict_mem "access_token" (token_document cfg w) = true) as Hm
      by (apply dict_mem_lookup; eauto).
  unfold pipeline, validate_config, acquire_token, dict_item.
  fold (token_document cfg w). fold (attachment_stage guess_type cfg w).
  rewrite Hc, Hm, Ht.
  destruct (attachment_stage guess_type cfg w) as [[e | attachment] t].
  - reflexivity.
  - run_monad.
    destruct (send_mail repr_str cfg w token (build_payload cfg attachment))
      as [r t'].
    reflexivity.
Qed.

Lemma attachment_stage_cases :
  (attachment_stage guess_type cfg w = (inr PNone, [])
   /\ (ATTACHMENT_PATH cfg = None \/ ATTACHMENT_PATH cfg = Some ""))
  \/ (exists path,
        ATTACHMENT_PATH cfg = Some path /\ path <> ""
        /\ attachment_stage guess_type cfg w
           = build_attachment guess_type w path).
Proof.
  unfold attachment_stage, str_truthy.
  destruct (ATTACHMENT_PATH cfg) as [path|]; [|left; auto].
  destruct (String.eqb_spec path "") as [-> | Hp]; cbn.
  - left. auto.
  - right. exists path. auto.
Qed.

End Runs.

(** X1.  Fail fast: with one or more of the three credentials empty the
    run is over after a single ERROR line that lists the missing variables,
    with exit status 1; no token is requested, no file is read and nothing
    is posted. *)
Theorem main_configuration_error_run
    (repr_str : string -> string) (guess_type : string -> option string)
    (HTTPError_is_OSError : bool) (cfg : config) (w : world) :
  CLIENT_ID cfg = "" \/ CLIENT_SECRET cfg = "" \/ TENANT_ID cfg = "" ->
  main repr_str guess_type HTTPError_is_OSError cfg w
  = Run 1 [EvLog ERROR ("Configuration error: " ++ missing_message cfg)].
Proof.
  intros H. unfold main. rewrite pipeline_unconfigured; [reflexivity|].
  intros Hm. apply credentials_set_iff in Hm. tauto.
Qed.

Lemma main_configuration_error_run_witness :
  main plain_repr no_mime_table true
    (with_credentials "client-id" "client-secret" "" shipped_config)
    (sample_world token_granted accepted)
  = Run 1
      [EvLog ERROR
         ("Configuration error: Missing required environment variable(s): "
          ++ "GRAPH_TENANT_ID" ++ nl
          ++ "Set them in your shell or a .env file before running this script.")].
Proof.
  apply (main_configuration_error_run plain_repr no_mime_table true
           (with_credentials "client-id" "client-secret" "" shipped_config)
           (sample_world token_granted accepted)).
  right. right. reflexivity.
Defined.

(** X2.  With credentials set and a token document without [access_token],
    the run consists of the one token request and one ERROR line labelled
    as an authentication error, with exit status 1: the attachment is never
    looked at and nothing is posted. *)
Theorem main_authentication_error_run
    (repr_str : string -> string) (guess_type : string -> option string)
    (HTTPError_is_OSError : bool) (cfg : config) (w : world) :
  CLIENT_ID cfg <> "" -> CLIENT_SECRET cfg <> "" -> TENANT_ID cfg <> "" ->
  dict_mem "access_token" (token_document cfg w) = false ->
  main repr_str guess_type HTTPError_is_OSError cfg w
  = Run 1
      [ token_request cfg;
        EvLog ERROR ("Authentication error: "
                     ++ auth_message repr_str (token_document cfg w)) ].
Proof.
  intros H1 H2 H3 Ht. unfold main.
  rewrite pipeline_unauthenticated; [reflexivity | | exact Ht].
  apply credentials_set_iff. auto.
Qed.

Lemma main_authentication_error_run_witness :
  main plain_repr no_mime_table true
    (with_attachment (Some "/reports/output.xlsx") shipped_config)
    (sample_world token_refused accepted)
  = Run 1
      [ EvTokenRequest "client-id"
          "https://login.microsoftonline.com/tenant-id" "client-secret"
          ["https://graph.microsoft.com/.default"];
        EvLog ERROR
          ("Authentication error: Authentication failed. Error: "
           ++ "invalid_client" ++ " — "
           ++ "AADSTS7000215: Invalid client secret provided.") ].
Proof.
  apply (main_authentication_error_run plain_repr no_mime_table true
           (with_attachment (Some "/reports/output.xlsx") shipped_config)
           (sample_world token_refused accepted));
    [discriminate | discriminate | discriminate | reflexivity].
Defined.

(** X3.  With credentials set and a token granted, a non-empty
    [ATTACHMENT_PATH] that does not name a regular file ends the run with
    exit status 1 after the token request: the token is fetched before the
    file is checked, nothing is read or posted, and the ERROR line carries
    the label of the configuration error. *)
Theorem main_attachment_error_run
    (repr_str : string -> string) (guess_type : string -> option string)
    (HTTPError_is_OSError : bool) (cfg : config) (w : world)
    (token : pyval) (path : string) :
  CLIENT_ID cfg <> "" -> CLIENT_SECRET cfg <> "" -> TENANT_ID cfg <> "" ->
  dict_lookup "access_token" (token_document cfg w) = Some token ->
  ATTACHMENT_PATH cfg = Some path -> path <> "" -> isfile w path = false ->
  main repr_str guess_type HTTPError_is_OSError cfg w
  = Run 1
      [ token_request cfg; acquired;
        EvLog ERROR ("Configuration error: "
                     ++ ("Attachment not found: " ++ path)) ].
Proof.
  intros H1 H2 H3 Ht Hp Hne Hf. unfold main.
  rewrite (pipeline_authenticated repr_str guess_type cfg w token);
    [| apply credentials_set_iff; auto | exact Ht].
  unfold attachment_stage, str_truthy. rewrite Hp.
  apply String.eqb_neq in Hne. rewrite Hne. cbn [negb].
  rewrite (build_attachment_missing guess_type w path Hf). reflexivity.
Qed.

Lemma main_attachment_error_run_witness :
  main plain_repr no_mime_table false
    (with_attachment (Some "/reports") shipped_config)
    (sample_world token_granted accepted)
  = Run 1
      [ EvTokenRequest "client-id"
          "https://login.microsoftonline.com/tenant-id" "client-secret"
          ["https://graph.microsoft.com/.default"];
        EvLog INFO "Access token acquired.";
        EvLog ERROR "Configuration error: Attachment not found: /reports" ].
Proof.
  apply (main_attachment_error_run plain_repr no_mime_table false
           (with_attachment (Some "/reports") shipped_config)
           (sample_world token_granted accepted) (PStr "T") "/reports");
    try discriminate; reflexivity.
Defined.

(** X4.  With credentials set, a token granted and the attachment stage
    done, a status other than 202 ends the run with exit status 1 right
    after the single POST.  The ERROR line holds the status and the body;
    its label is that of the send failure only if [requests.HTTPError] is
    not an [OSError], and that of the configuration error if it is. *)
Theorem main_send_failure_run
    (repr_str : string -> string) (guess_type : string -> option string)
    (HTTPError_is_OSError : bool) (cfg : config) (w : world)
    (token attachment : pyval) (t : list event) :
  CLIENT_ID cfg <> "" -> CLIENT_SECRET cfg <> "" -> TENANT_ID cfg <> "" ->
  dict_lookup "access_token" (token_document cfg w) = Some token ->
  attachment_stage guess_type cfg w = (inr attachment, t) ->
  let payload := build_payload cfg attachment in
  let answer := mail_answer repr_str cfg w token payload in
  status_code answer <> 202%Z ->
  main repr_str guess_type HTTPError_is_OSError cfg w
  = Run 1
      (token_request cfg :: acquired :: t
       ++ [ EvPost (sendmail_url cfg) (sendmail_headers repr_str token) payload;
            EvLog ERROR
              ((if HTTPError_is_OSError then "Configuration error: "
                else "Send failed: ")
               ++ send_failure_message repr_str answer) ]).
Proof.
  intros H1 H2 H3 Ht Ha payload answer Hs. unfold main.
  rewrite (pipeline_authenticated repr_str guess_type cfg w token);
    [| apply credentials_set_iff; auto | exact Ht].
  rewrite Ha, send_mail_run. cbv zeta. fold payload. fold answer.
  apply Z.eqb_neq in Hs. rewrite Hs.
  cbn [exn_cls exn_msg].
  rewrite handler_label_HTTPError.
  destruct HTTPError_is_OSError; cbn [app];
    rewrite <- app_assoc; reflexivity.
Qed.

Lemma main_send_failure_run_witness :
  main plain_repr no_mime_table true shipped_config
    (sample_world token_granted bad_request)
  = Run 1
      [ token_request shipped_config; acquired;
        EvPost (sendmail_url shipped_config)
          (sendmail_headers plain_repr (PStr "T"))
          (build_payload shipped_config PNone);
        EvLog ERROR
          "Configuration error: Graph API returned 400: {'error': {'message': 'bad request'}}" ].
Proof.
  apply (main_send_failure_run plain_repr no_mime_table true shipped_config
           (sample_world token_granted bad_request) (PStr "T") PNone []);
    try discriminate; reflexivity.
Defined.

(** X5.  With credentials set, a token granted, the attachment stage done
    and status 202, the run ends with exit status 0 and is exactly: the
    token request, its INFO line, the effects of the attachment stage, one
    POST of the built payload to the sender's [sendMail] URL with the
    bearer token, and the INFO line of success. *)
Theorem main_success_run
    (repr_str : string -> string) (guess_type : string -> option string)
    (HTTPError_is_OSError : bool) (cfg : config) (w : world)
    (token attachment : pyval) (t : list event) :
  CLIENT_ID cfg <> "" -> CLIENT_SECRET cfg <> "" -> TENANT_ID cfg <> "" ->
  dict_lookup "access_token" (token_document cfg w) = Some token ->
  attachment_stage guess_type cfg w = (inr attachment, t) ->
  let payload := build_payload cfg attachment in
  status_code (mail_answer repr_str cfg w token payload) = 202%Z ->
  main repr_str guess_type HTTPError_is_OSError cfg w
  = Run 0
      (token_request cfg :: acquired :: t
       ++ [ EvPost (sendmail_url cfg) (sendmail_headers repr_str token) payload;
            sent ]).
Proof.
  intros H1 H2 H3 Ht Ha payload Hs. unfold main.
  rewrite (pipeline_authenticated repr_str guess_type cfg w token);
    [| apply credentials_set_iff; auto | exact Ht].
  rewrite Ha, send_mail_run. cbv zeta. fold payload. rewrite Hs.
  reflexivity.
Qed.

Lemma main_success_run_witness :
  main plain_repr no_mime_table true
    (with_attachment (Some "/reports/output.xlsx") shipped_config)
    (sample_world token_granted accepted)
  = Run 0
      [ token_request shipped_config; acquired;
        EvFileRead "/reports/output.xlsx";
        EvLog INFO "Attachment ready: output.xlsx (application/octet-stream)";
        EvPost "https://graph.microsoft.com/v1.0/users/reports@yourdomain.com/sendMail"
          [ ("Authorization", "Bearer T");
            ("Content-Type", "application/json") ]
          (build_payload shipped_config
             (PDict [ ("@odata.type", PStr "#microsoft.graph.fileAttachment");
                      ("name", PStr "output.xlsx");
                      ("contentType", PStr "application/octet-stream");
                      ("contentBytes", PStr "TWFu/w==") ]));
        sent ].
Proof.
  apply (main_success_run plain_repr no_mime_table true
           (with_attachment (Some "/reports/output.xlsx") shipped_config)
           (sample_world token_granted accepted) (PStr "T")
           (PDict [ ("@odata.type", PStr "#microsoft.graph.fileAttachment");
                    ("name", PStr "output.xlsx");
                    ("contentType", PStr "application/octet-stream");
                    ("contentBytes", PStr "TWFu/w==") ])
           [ EvFileRead "/reports/output.xlsx";
             EvLog INFO
               "Attachment ready: output.xlsx (application/octet-stream)" ]);
    try discriminate; reflexivity.
Defined.

Section RunShapes.
Variable repr_str : string -> string.
Variable guess_type : string -> option string.
Variable HTTPError_is_OSError : bool.
Variable cfg : config.
Variable w : world.

Lemma build_attachment_cases path :
  (isfile w path = false
   /\ build_attachment guess_type w path
      = raise FileNotFoundError ("Attachment not found: " ++ path))
  \/ (exists content,
        fs w path = Some (RegularFile content)
        /\ build_attachment guess_type w path
           = (inr (PDict [ ("@odata.type",
                            PStr "#microsoft.graph.fileAttachment");
                           ("name", PStr (basename path));
                           ("contentType", PStr (mime_of guess_type path));
                           ("contentBytes", PStr (b64encode content)) ]),
              [ EvFileRead path;
                EvLog INFO ("Attachment ready: " ++ basename path ++ " ("
                            ++ mime_of guess_type path ++ ")") ])).
Proof.
  destruct (isfile w path) eqn:E.
  - right. apply isfile_regular in E. destruct E as [content Hc].
    exists content. split; [exact Hc|].
    apply build_attachment_regular, Hc.
  - left. split; [reflexivity|]. apply build_attachment_missing, E.
Qed.

(** What the attachment stage can do: nothing, fail before any effect, or
    read the one file and log it. *)
Lemma attachment_stage_shapes :
  attachment_stage guess_type cfg w = (inr PNone, [])
  \/ (exists path,
        attachment_stage guess_type cfg w
        = raise FileNotFoundError ("Attachment not found: " ++ path))
  \/ (exists path descriptor line,
        attachment_stage guess_type cfg w
        = (inr descriptor, [EvFileRead path; EvLog INFO line])).
Proof.
  destruct (attachment_stage_cases guess_type cfg w)
    as [[H _] | (path & _ & _ & H)]; [left; exact H|].
  right. rewrite H.
  destruct (build_attachment_cases path) as [[_ Hb] | (content & _ & Hb)];
    rewrite Hb; [left | right]; eauto.
Qed.

(** Every run has one of four shapes. *)
Lemma main_shapes :
  let run := main repr_str guess_type HTTPError_is_OSError cfg w in
  (exists label detail,
      In label labels /\ run = Run 1 [EvLog ERROR (label ++ detail)])
  \/ (exists label detail,
        In label labels
        /\ run = Run 1 [token_request cfg; EvLog ERROR (label ++ detail)])
  \/ (exists label detail,
        In label labels
        /\ run = Run 1 [ token_request cfg; acquired;
                         EvLog ERROR (label ++ detail) ])
  \/ (exists t post code last,
        run = Run code (token_request cfg :: acquired :: t ++ [post; last])
        /\ is_post post = true
        /\ (t = [] \/ exists path line, t = [EvFileRead path; EvLog INFO line])
        /\ ((code = 0%Z /\ last = sent)
            \/ (code = 1%Z
                /\ exists label detail,
                    In label labels /\ last = EvLog ERROR (label ++ detail)))).
Proof.
  cbv zeta. unfold main.
  destruct (missing_variables cfg) as [|name names] eqn:Hm.
  2:{ left. rewrite pipeline_unconfigured by (rewrite Hm; discriminate).
      exists "Configuration error: ", (missing_message cfg).
      split; [simpl; auto | reflexivity]. }
  destruct (dict_lookup "access_token" (token_document cfg w))
    as [token|] eqn:Ht.
  2:{ right. left.
      rewrite pipeline_unauthenticated; [| exact Hm |].
      - exists "Authentication error: ",
          (auth_message repr_str (token_document cfg w)).
        split; [simpl; auto | reflexivity].
      - destruct (dict_mem "access_token" (token_document cfg w)) eqn:E;
          [|reflexivity].
        apply dict_mem_lookup in E. destruct E as [v Hv]. congruence. }
  rewrite (pipeline_authenticated repr_str guess_type cfg w token Hm Ht).
  assert (forall attachment t,
             t = [] \/ (exists path line, t = [EvFileRead path; EvLog INFO line]) ->
             exists t0 post code last,
               match
                 (let (r, t') :=
                    send_mail repr_str cfg w token (build_payload cfg attachment)
                  in (r, token_request cfg :: acquired :: (t ++ t')%list))
               with
               | (inr _, t1) => Run 0 t1
               | (inl e, t1) =>
                   match handler_label HTTPError_is_OSError (exn_cls e) with
                   | Some label => Run 1 (t1 ++ [EvLog ERROR (label ++ exn_msg e)])
                   | None => Run 1 t1
                   end
               end
               = Run code (token_request cfg :: acquired :: t0 ++ [post; last])
               /\ is_post post = true
               /\ (t0 = [] \/ exists path line,
                               t0 = [EvFileRead path; EvLog INFO line])
               /\ ((code = 0%Z /\ last = sent)
                   \/ (code = 1%Z
                       /\ exists label detail,
                           In label labels
                           /\ last = EvLog ERROR (label ++ detail)))) as Hsend.
  { intros attachment t Hshape. rewrite send_mail_run. cbv zeta.
    destruct (status_code _ =? 202)%Z.
    - eexists t, _, 0%Z, sent. split; [reflexivity|]. split; [reflexivity|].
      split; [exact Hshape | left; auto].
    - cbn [exn_cls exn_msg]. rewrite handler_label_HTTPError.
      destruct HTTPError_is_OSError.
      + eexists t, _, 1%Z, _. split.
        * cbn [app]. rewrite <- app_assoc. reflexivity.
        * split; [reflexivity|]. split; [exact Hshape|]. right.
          split; [reflexivity|]. eexists _, _. split; [|reflexivity].
          simpl; auto.
      + eexists t, _, 1%Z, _. split.
        * cbn [app]. rewrite <- app_assoc. reflexivity.
        * split; [reflexivity|]. split; [exact Hshape|]. right.
          split; [reflexivity|]. eexists _, _. split; [|reflexivity].
          simpl; auto. }
  destruct attachment_stage_shapes
    as [Ha | [(path & Ha) | (path & descriptor & line & Ha)]].
  - right. right. right. rewrite Ha. apply (Hsend PNone []); auto.
  - right. right. left. rewrite Ha.
    exists "Configuration error: ", ("Attachment not found: " ++ path).
    split; [simpl; auto | reflexivity].
  - right. right. right. rewrite Ha.
    apply (Hsend descriptor [EvFileRead path; EvLog INFO line]); eauto.
Qed.

End RunShapes.

(** X6.  The exit status is 0 exactly when all four things hold: the three
    credentials are non-empty, the token document has an [access_token],
    the attachment stage returns (no path, an empty path, or a regular
    file), and the mail endpoint answers 202 to the request built from
    them.  In every other case it is 1. *)
Theorem main_exit_zero_iff
    (repr_str : string -> string) (guess_type : string -> option string)
    (HTTPError_is_OSError : bool) (cfg : config) (w : world) :
  (exit_code (main repr_str guess_type HTTPError_is_OSError cfg w) = 0%Z
   <-> (CLIENT_ID cfg <> "" /\ CLIENT_SECRET cfg <> "" /\ TENANT_ID cfg <> "")
       /\ exists token attachment t,
           dict_lookup "access_token" (token_document cfg w) = Some token
           /\ attachment_stage guess_type cfg w = (inr attachment, t)
           /\ status_code
                (mail_answer repr_str cfg w token (build_payload cfg attachment))
              = 202%Z)
  /\ (exit_code (main repr_str guess_type HTTPError_is_OSError cfg w) = 0%Z
      \/ exit_code (main repr_str guess_type HTTPError_is_OSError cfg w) = 1%Z).
Proof.
  rewrite main_exit_code. split.
  2:{ destruct (outcome _); auto. }
  split.
  - intros Hz.
    destruct (missing_variables cfg) as [|name names] eqn:Hm.
    2:{ rewrite pipeline_unconfigured in Hz by (rewrite Hm; discriminate).
        discriminate. }
    split; [apply credentials_set_iff, Hm|].
    destruct (dict_lookup "access_token" (token_document cfg w))
      as [token|] eqn:Ht.
    2:{ rewrite pipeline_unauthenticated in Hz; [discriminate | exact Hm |].
        destruct (dict_mem "access_token" (token_document cfg w)) eqn:E;
          [|reflexivity].
        apply dict_mem_lookup in E. destruct E as [v Hv]. congruence. }
    rewrite (pipeline_authenticated repr_str guess_type cfg w token Hm Ht) in Hz.
    destruct (attachment_stage guess_type cfg w) as [[e | attachment] t];
      [discriminate|].
    exists token, attachment, t. split; [reflexivity|]. split; [reflexivity|].
    rewrite send_mail_run in Hz. cbv zeta in Hz. unfold outcome in Hz.
    destruct (Z.eqb_spec
                (status_code
                   (mail_answer repr_str cfg w token
                      (build_payload cfg attachment))) 202) as [E | E];
      [exact E | discriminate].
  - intros (Hc & token & attachment & t & Ht & Ha & Hs).
    apply credentials_set_iff in Hc.
    rewrite (pipeline_authenticated repr_str guess_type cfg w token Hc Ht).
    rewrite Ha, send_mail_run. cbv zeta. rewrite Hs. reflexivity.
Qed.



(** X8.  No retries: in every run the token is requested at most once, at
    most one file is read and at most one POST is made; a POST is made only
    after the token request, and a file is read only after it too. *)
Theorem main_at_most_once
    (repr_str : string -> string) (guess_type : string -> option string)
    (HTTPError_is_OSError : bool) (cfg : config) (w : world) :
  let t := trace (main repr_str guess_type HTTPError_is_OSError cfg w) in
  (count is_token_request t <= 1)%nat
  /\ (count is_file_read t <= 1)%nat
  /\ (count is_post t <= 1)%nat
  /\ ((0 < count is_post t + count is_file_read t)%nat ->
      exists rest, t = token_request cfg :: rest).
Proof.
  cbv zeta.
  destruct (main_shapes repr_str guess_type HTTPError_is_OSError cfg w)
    as [(l & d & Hl & ->) | [(l & d & Hl & ->) | [(l & d & Hl & ->) |
        (t & post & code & last & -> & Hpost & Ht & Hlast)]]];
    cbn [trace].
  - unfold count; cbn. repeat split; lia.
  - unfold count; cbn. repeat split; try lia; eauto.
  - unfold count; cbn. repeat split; try lia; eauto.
  - assert (exists lvl m, last = EvLog lvl m) as (lvl & m & ->).
    { destruct Hlast as [[_ ->] | (_ & l & d & _ & ->)];
        [exists INFO | exists ERROR]; eexists; reflexivity. }
    destruct post; try discriminate.
    destruct Ht as [-> | (path & line & ->)]; unfold count; cbn;
      repeat split; try lia; eauto.
Qed.

Lemma main_at_most_once_witness :
  exists rest,
    trace (main plain_repr no_mime_table true shipped_config
             (sample_world token_granted accepted))
    = token_request shipped_config :: rest.
Proof.
  apply (main_at_most_once plain_repr no_mime_table true shipped_config
           (sample_world token_granted accepted)).
  vm_compute. lia.
Defined.

(** X9.  An [ATTACHMENT_PATH] that is the empty string counts as no
    attachment: the run is the same, effect for effect, as with [None];
    in particular no [FileNotFoundError] is raised for it. *)
Theorem main_empty_path_is_no_attachment
    (repr_str : string -> string) (guess_type : string -> option string)
    (HTTPError_is_OSError : bool) (cfg : config) (w : world) :
  main repr_str guess_type HTTPError_is_OSError
    (with_attachment (Some "") cfg) w
  = main repr_str guess_type HTTPError_is_OSError
      (with_attachment None cfg) w.
Proof. reflexivity. Qed.

(** X10.  End to end: with credentials set, a token granted and a
    non-empty [ATTACHMENT_PATH] that names a regular file, the run posts a
    body whose [attachments] field holds exactly one descriptor, named
    after the last component of the path, whose [contentBytes] decodes to
    the bytes of the file; the POST goes to the sender's [sendMail] URL with
    the token in the [Authorization] header. *)
Theorem main_posts_file_content
    (repr_str : string -> string) (guess_type : string -> option string)
    (HTTPError_is_OSError : bool) (cfg : config) (w : world)
    (token : pyval) (path : string) (content : list byte) :
  CLIENT_ID cfg <> "" -> CLIENT_SECRET cfg <> "" -> TENANT_ID cfg <> "" ->
  dict_lookup "access_token" (token_document cfg w) = Some token ->
  ATTACHMENT_PATH cfg = Some path -> path <> "" ->
  fs w path = Some (RegularFile content) ->
  exists body descriptor encoded,
    In (EvPost (sendmail_url cfg) (sendmail_headers repr_str token) body)
       (trace (main repr_str guess_type HTTPError_is_OSError cfg w))
    /\ attachments_of body = Some (PList [descriptor])
    /\ field "name" descriptor = Some (PStr (basename path))
    /\ field "contentBytes" descriptor = Some (PStr encoded)
    /\ b64decode encoded = Some content.
Proof.
  intros H1 H2 H3 Ht Hp Hne Hf.
  assert (missing_variables cfg = []) as Hm by (apply credentials_set_iff; auto).
  assert (attachment_stage guess_type cfg w
          = build_attachment guess_type w path) as Ha.
  { unfold attachment_stage, str_truthy. rewrite Hp.
    apply String.eqb_neq in Hne. now rewrite Hne. }
  rewrite (build_attachment_regular guess_type w path content Hf) in Ha.
  eexists _, _, (b64encode content).
  split; [|split; [|split; [|split]]].
  - unfold main.
    rewrite (pipeline_authenticated repr_str guess_type cfg w token Hm Ht).
    rewrite Ha, send_mail_run. cbv zeta.
    destruct (status_code _ =? 202)%Z.
    + cbn [trace]. do 4 right. left. reflexivity.
    + cbn [exn_cls exn_msg]. rewrite handler_label_HTTPError.
      destruct HTTPError_is_OSError; cbn [trace];
        apply in_or_app; left; do 4 right; left; reflexivity.
  - reflexivity.
  - reflexivity.
  - reflexivity.
  - apply b64decode_b64encode.
Qed.

Lemma main_posts_file_content_witness :
  exists body descriptor encoded,
    In (EvPost (sendmail_url shipped_config)
          (sendmail_headers plain_repr (PStr "T")) body)
       (trace (main plain_repr no_mime_table true
                 (with_attachment (Some "/reports/output.xlsx") shipped_config)
                 (sample_world token_granted accepted)))
    /\ attachments_of body = Some (PList [descriptor])
    /\ field "name" descriptor = Some (PStr "output.xlsx")
    /\ field "contentBytes" descriptor = Some (PStr encoded)
    /\ b64decode encoded = Some [x4d; x61; x6e; xff].
Proof.
  apply (main_posts_file_content plain_repr no_mime_table true
           (with_attachment (Some "/reports/output.xlsx") shipped_config)
           (sample_world token_granted accepted) (PStr "T")
           "/reports/output.xlsx" [x4d; x61; x6e; xff]);
    try discriminate; reflexivity.
Defined.

(** X11.  Whatever [build_attachment] returns is attached: its result is
    never the empty mapping, so [build_payload] puts it, alone, into the
    [attachments] field. *)
Theorem build_attachment_result_is_attached
    (guess_type : string -> option string) (cfg : config) (w : world)
    (path : string) (descriptor : pyval) :
  outcome (build_attachment guess_type w path) = inr descriptor ->
  truthy descriptor = true
  /\ attachments_of (build_payload cfg descriptor) = Some (PList [descriptor]).
Proof.
  intros H.
  destruct (build_attachment_cases guess_type w path)
    as [[_ Hb] | (content & _ & Hb)];
    rewrite Hb in H; [discriminate|].
  injection H as <-.
  rewrite attachments_of_build_payload. split; reflexivity.
Qed.

Lemma build_attachment_result_is_attached_witness :
  exists descriptor,
    outcome (build_attachment no_mime_table
               (sample_world token_granted accepted) "/reports/output.xlsx")
    = inr descriptor
    /\ attachments_of (build_payload shipped_config descriptor)
       = Some (PList [descriptor]).
Proof.
  eexists. split; [reflexivity|].
  apply (build_attachment_result_is_attached no_mime_table shipped_config
           (sample_world token_granted accepted) "/reports/output.xlsx").
  reflexivity.
Defined.

(** ** More on the stages *)

Lemma prefix_of_append s post : String.prefix s (s ++ post) = true.
Proof.
  induction s as [|a s IH]; simpl; [now destruct post|].
  destruct (ascii_dec a a) as [_ | N]; [exact IH | contradiction].
Qed.

Lemma contains_unfold t s :
  contains t s
  = String.prefix s t
    || match t with EmptyString => false | String _ t' => contains t' s end.
Proof. destruct t; reflexivity. Qed.

(** The executable test misses no occurrence. *)
Lemma contains_complete t s : embeds t s -> contains t s = true.
Proof.
  intros (pre & post & ->). induction pre as [|c pre IH].
  - cbn [append]. rewrite contains_unfold, prefix_of_append. reflexivity.
  - cbn [append contains]. rewrite IH. apply orb_true_r.
Qed.

(** X12.  The message of [validate_config] names no variable that is set:
    together with C3, the names in it are exactly those of the empty
    credentials. *)
Theorem validate_config_names_only_missing
    (cfg : config) (msg name value : string) :
  validate_config cfg = raise EnvironmentError msg ->
  In (name, value) (required_variables cfg) -> value <> "" ->
  ~ embeds msg name.
Proof.
  intros H Hin Hv Hemb. apply contains_complete in Hemb.
  revert H Hin.
  unfold validate_config, missing_variables, required_variables, str_truthy,
    raise.
  cbn.
  destruct (String.eqb_spec (CLIENT_ID cfg) "") as [E1 | E1];
    destruct (String.eqb_spec (CLIENT_SECRET cfg) "") as [E2 | E2];
    destruct (String.eqb_spec (TENANT_ID cfg) "") as [E3 | E3];
    cbn; intros H Hin; try discriminate H;
    injection H as <-;
    destruct Hin as [E | [E | [E | []]]]; injection E as <- <-;
    try contradiction; vm_compute in Hemb; discriminate.
Qed.

Lemma validate_config_names_only_missing_witness :
  ~ embeds
      (missing_message (with_credentials "" "client-secret" "" shipped_config))
      "GRAPH_CLIENT_SECRET".
Proof.
  apply (validate_config_names_only_missing
           (with_credentials "" "client-secret" "" shipped_config)
           (missing_message
              (with_credentials "" "client-secret" "" shipped_config))
           "GRAPH_CLIENT_SECRET" "client-secret").
  - reflexivity.
  - simpl. auto.
  - discriminate.
Defined.

(** X13.  A token document that has neither [access_token] nor [error] nor
    [error_description] (the empty document, for one) still fails as an
    authentication error; the message then reads [None] in both places. *)
Theorem acquire_token_without_error_fields
    (repr_str : string -> string) (cfg : config) (w : world) :
  dict_mem "access_token" (token_document cfg w) = false ->
  dict_lookup "error" (token_document cfg w) = None ->
  dict_lookup "error_description" (token_document cfg w) = None ->
  acquire_token repr_str cfg w
  = (inl (Raise RuntimeError "Authentication failed. Error: None — None"),
     [token_request cfg]).
Proof.
  intros Ht He Hd. unfold acquire_token. fold (token_document cfg w).
  rewrite Ht. unfold dict_get. rewrite He, Hd. reflexivity.
Qed.

Lemma acquire_token_without_error_fields_witness :
  acquire_token plain_repr shipped_config (sample_world [] accepted)
  = (inl (Raise RuntimeError "Authentication failed. Error: None — None"),
     [token_request shipped_config]).
Proof.
  apply (acquire_token_without_error_fields plain_repr shipped_config
           (sample_world [] accepted)); reflexivity.
Defined.

Lemma basename_no_sep p : has_sep (basename p) = false.
Proof.
  induction p as [|c r IH]; [reflexivity|]. cbn [basename].
  destruct (has_sep r) eqn:Hr; [exact IH|].
  destruct (Ascii.eqb c "/") eqn:Hc; [exact Hr|].
  cbn [has_sep]. now rewrite Hc, Hr.
Qed.

Lemma basename_suffix p :
  exists dir, p = dir ++ basename p /\ (dir = "" \/ exists d, dir = d ++ "/").
Proof.
  induction p as [|c r (dir & Hr & Hdir)].
  - exists "". auto.
  - cbn [basename]. destruct (has_sep r) eqn:Hs.
    + exists (String c dir). split; [cbn [append]; now rewrite <- Hr|].
      right. destruct Hdir as [-> | (d & ->)].
      * cbn [append] in Hr. rewrite Hr, basename_no_sep in Hs. discriminate.
      * exists (String c d). reflexivity.
    + destruct (Ascii.eqb_spec c "/") as [-> | Hc].
      * exists "/". split; [reflexivity|]. right. exists "". reflexivity.
      * exists "". auto.
Qed.

(** X14.  The [name] of the descriptor is the last component of the path:
    it has no [/] in it, and the path is a directory prefix (empty, or
    ending in [/]) followed by it. *)
Theorem build_attachment_name
    (guess_type : string -> option string) (w : world)
    (path : string) (content : list byte) :
  fs w path = Some (RegularFile content) ->
  exists descriptor name dir,
    outcome (build_attachment guess_type w path) = inr descriptor
    /\ field "name" descriptor = Some (PStr name)
    /\ has_sep name = false
    /\ path = dir ++ name
    /\ (dir = "" \/ exists d, dir = d ++ "/").
Proof.
  intros H. rewrite (build_attachment_regular guess_type w path content H).
  destruct (basename_suffix path) as (dir & Hp & Hdir).
  eexists _, (basename path), dir.
  split; [reflexivity|]. split; [reflexivity|].
  split; [apply basename_no_sep|]. split; [exact Hp | exact Hdir].
Qed.

Lemma build_attachment_name_witness :
  exists descriptor name dir,
    outcome (build_attachment no_mime_table
               (sample_world token_granted accepted) "/reports/output.xlsx")
    = inr descriptor
    /\ field "name" descriptor = Some (PStr name)
    /\ has_sep name = false
    /\ "/reports/output.xlsx" = dir ++ name
    /\ (dir = "" \/ exists d, dir = d ++ "/").
Proof.
  apply (build_attachment_name no_mime_table
           (sample_world token_granted accepted) "/reports/output.xlsx"
           [x4d; x61; x6e; xff]).
  reflexivity.
Defined.

(** X15.  The [contentType] of the descriptor is never empty: it is the
    guessed type when there is one and it is not the empty string, and
    [application/octet-stream] otherwise. *)
Theorem build_attachment_content_type
    (guess_type : string -> option string) (w : world)
    (path : string) (content : list byte) :
  fs w path = Some (RegularFile content) ->
  exists descriptor mime,
    outcome (build_attachment guess_type w path) = inr descriptor
    /\ field "contentType" descriptor = Some (PStr mime)
    /\ mime <> ""
    /\ (forall m, guess_type path = Some m -> m <> "" -> mime = m)
    /\ (guess_type path = None \/ guess_type path = Some "" ->
        mime = "application/octet-stream").
Proof.
  intros H. rewrite (build_attachment_regular guess_type w path content H).
  eexists _, (mime_of guess_type path).
  split; [reflexivity|]. split; [reflexivity|].
  unfold mime_of, str_truthy.
  destruct (guess_type path) as [m|].
  - destruct (String.eqb_spec m "") as [-> | Hm]; cbn [negb].
    + split; [discriminate|]. split; [|reflexivity].
      intros m Hm Hne. injection Hm as <-. contradiction.
    + split; [exact Hm|]. split; [intros m' E _; now injection E|].
      intros [E | E]; [discriminate | injection E as ->; contradiction].
  - split; [discriminate|]. split; [discriminate | reflexivity].
Qed.

Lemma build_attachment_content_type_witness :
  exists descriptor mime,
    outcome (build_attachment no_mime_table
               (sample_world token_granted accepted) "/reports/output.xlsx")
    = inr descriptor
    /\ field "contentType" descriptor = Some (PStr mime)
    /\ mime <> "".
Proof.
  destruct (build_attachment_content_type no_mime_table
              (sample_world token_granted accepted) "/reports/output.xlsx"
              [x4d; x61; x6e; xff] eq_refl)
    as (descriptor & mime & Ho & Hf & Hm & _).
  exists descriptor, mime. auto.
Defined.

(** X16.  The encoded payload of [n] bytes is [4 * ceil(n / 3)] characters
    long, so always a multiple of four, and every character of it is one of
    the 64 digits of the alphabet or the padding [=]. *)
Theorem b64encode_length_and_alphabet (data : list byte) :
  String.length (b64encode data) = (4 * ((List.length data + 2) / 3))%nat
  /\ Forall (fun c => is_b64_digit c \/ c = b64_pad)
            (list_ascii_of_string (b64encode data)).
Proof.
  split.
  - induction data as [| a | a b | a b c rest IH] using triples_ind;
      try reflexivity.
    cbn [b64encode String.length List.length]. rewrite IH.
    replace (S (S (S (List.length rest))) + 2)%nat
      with (List.length rest + 2 + 1 * 3)%nat by lia.
    rewrite Nat.div_add by discriminate. lia.
  - assert (forall k g, is_b64_digit (b64_digit (sextet k g)) \/
                        b64_digit (sextet k g) = b64_pad) as Hd.
    { intros k g. left. eexists.
      apply Base64Facts.value_digit, Base64Facts.sextet_lt. }
    induction data as [| a | a b | a b c rest IH] using triples_ind;
      cbn [b64encode list_ascii_of_string];
      repeat (constructor; try apply Hd; try (right; reflexivity));
      assumption.
Qed.

(** ** The [dict] behind the message *)

Lemma dict_lookup_set_same k v d : dict_lookup k (dict_set k v d) = Some v.
Proof.
  induction d as [|[k' v'] d IH]; cbn [dict_set dict_lookup].
  - now rewrite String.eqb_refl.
  - destruct (String.eqb k k') eqn:E; cbn [dict_lookup]; rewrite E; auto.
Qed.

Lemma dict_lookup_set_other k k' v d :
  k' <> k -> dict_lookup k' (dict_set k v d) = dict_lookup k' d.
Proof.
  intros Hne. induction d as [|[k0 v0] d IH]; cbn [dict_set dict_lookup].
  - apply String.eqb_neq in Hne. now rewrite Hne.
  - destruct (String.eqb_spec k k0) as [<- | Hk]; cbn [dict_lookup].
    + apply String.eqb_neq in Hne. now rewrite Hne.
    + destruct (String.eqb k' k0); auto.
Qed.

Lemma dict_set_keys k v d :
  map fst (dict_set k v d)
  = if dict_mem k d then map fst d else (map fst d ++ [k])%list.
Proof.
  induction d as [|[k0 v0] d IH]; cbn [dict_set dict_mem map app fst];
    [reflexivity|].
  destruct (String.eqb k k0); cbn [orb map fst]; [reflexivity|].
  rewrite IH. destruct (dict_mem k d); reflexivity.
Qed.

(** X17.  Item assignment on a [dict], as [message["attachments"] = ...]
    uses it: the key then maps to the new value, every other key maps to
    what it mapped to before, and the keys keep their order, a new key
    going last. *)
Theorem dict_set_lookup (k : string) (v : pyval) (d : pydict) :
  dict_lookup k (dict_set k v d) = Some v
  /\ (forall k', k' <> k -> dict_lookup k' (dict_set k v d) = dict_lookup k' d)
  /\ map fst (dict_set k v d)
     = (if dict_mem k d then map fst d else (map fst d ++ [k])%list).
Proof.
  split; [apply dict_lookup_set_same|].
  split; [intros k'; apply dict_lookup_set_other | apply dict_set_keys].
Qed.

(** X18.  Attaching only adds: the request body always has
    [saveToSentItems] set to true, and every field of the message other
    than [attachments] is the same with a descriptor as without one. *)
Theorem build_payload_attachment_only_adds
    (cfg : config) (attachment : pyval) (k : string) :
  k <> "attachments" ->
  message_field k (build_payload cfg attachment)
  = message_field k (build_payload cfg PNone)
  /\ field "saveToSentItems" (build_payload cfg attachment) = Some (PBool true).
Proof.
  intros Hk. split; [|reflexivity].
  unfold build_payload. cbn [truthy].
  destruct (truthy attachment); [|reflexivity].
  unfold message_field, message_of, field. cbn [dict_lookup String.eqb Ascii.eqb].
  cbv beta iota. apply dict_lookup_set_other, Hk.
Qed.

Lemma build_payload_attachment_only_adds_witness :
  message_field "toRecipients"
    (build_payload shipped_config (PDict [("name", PStr "output.xlsx")]))
  = message_field "toRecipients" (build_payload shipped_config PNone).
Proof.
  apply (build_payload_attachment_only_adds shipped_config
           (PDict [("name", PStr "output.xlsx")]) "toRecipients").
  discriminate.
Defined.

Lemma main_never_logs_attachment_error_witness :
  ~ In (EvLog ERROR ("Attachment error: "
                     ++ "Attachment not found: /reports/missing.xlsx"))
       (trace (main plain_repr no_mime_table true
                 (with_attachment (Some "/reports/missing.xlsx") shipped_config)
                 (sample_world token_granted accepted))).
Proof.
  apply (main_never_logs_attachment_error plain_repr no_mime_table true
           (with_attachment (Some "/reports/missing.xlsx") shipped_config)
           (sample_world token_granted accepted)
           "Attachment not found: /reports/missing.xlsx").
Defined.

(** X20.  With credentials set, a token granted and no attachment
    configured ([None] or the empty string), the run reads no file and
    posts a body whose message has no [attachments] key. *)
Theorem main_posts_without_attachment
    (repr_str : string -> string) (guess_type : string -> option string)
    (HTTPError_is_OSError : bool) (cfg : config) (w : world) (token : pyval) :
  CLIENT_ID cfg <> "" -> CLIENT_SECRET cfg <> "" -> TENANT_ID cfg <> "" ->
  dict_lookup "access_token" (token_document cfg w) = Some token ->
  ATTACHMENT_PATH cfg = None \/ ATTACHMENT_PATH cfg = Some "" ->
  let run := main repr_str guess_type HTTPError_is_OSError cfg w in
  exists body,
    In (EvPost (sendmail_url cfg) (sendmail_headers repr_str token) body)
       (trace run)
    /\ attachments_of body = None
    /\ count is_file_read (trace run) = 0%nat.
Proof.
  intros H1 H2 H3 Ht Hp run.
  assert (missing_variables cfg = []) as Hm by (apply credentials_set_iff; auto).
  assert (attachment_stage guess_type cfg w = (inr PNone, [])) as Ha.
  { unfold attachment_stage. destruct Hp as [-> | ->]; reflexivity. }
  exists (build_payload cfg PNone). subst run. unfold main.
  rewrite (pipeline_authenticated repr_str guess_type cfg w token Hm Ht).
  rewrite Ha, send_mail_run. cbv zeta.
  destruct (status_code _ =? 202)%Z.
  - cbn [trace app]. split; [do 2 right; left; reflexivity|].
    split; reflexivity.
  - cbn [exn_cls exn_msg app]. rewrite handler_label_HTTPError.
    destruct HTTPError_is_OSError; cbn [trace app];
      (split; [do 2 right; left; reflexivity|]); split; reflexivity.
Qed.

Lemma main_posts_without_attachment_witness :
  exists body,
    In (EvPost (sendmail_url shipped_config)
          (sendmail_headers plain_repr (PStr "T")) body)
       (trace (main plain_repr no_mime_table true shipped_config
                 (sample_world token_granted accepted)))
    /\ attachments_of body = None
    /\ count is_file_read
         (trace (main plain_repr no_mime_table true shipped_config
                   (sample_world token_granted accepted))) = 0%nat.
Proof.
  apply (main_posts_without_attachment plain_repr no_mime_table true
           shipped_config (sample_world token_granted accepted) (PStr "T"));
    try discriminate; [reflexivity | left; reflexivity].
Defined.
